(** * CreatorBrief AI: the request-orchestration core

    A shallow embedding of [lib/ai-service.ts] and
    [workflows/generate-brief.ts], and the properties of the cache, the rate
    limiter, the sanitizer, the fingerprint and the response validator.

    Conventions of the embedding:
    - a JavaScript string is the list of its UTF-16 code units ([list N]);
      [js] turns an ASCII literal into such a list;
    - [Date.now()] reads a clock oracle held by the world, one reading per
      call, so nothing is assumed about how time moves between two readings;
    - the three SDK clients are oracles of the world, indexed by the number
      of backend calls made so far; every backend call is logged;
    - a [throw] is the [Throw] result of the monad [M];
    - an [async] function is run to its end: the calls of a run follow one
      another and do not interleave at an [await];
    - [console.log] and [console.error] are left out. *)

From Stdlib Require Import ZArith NArith List Ascii String Lia Bool.
From Stdlib Require Import DecimalString.
From stdpp Require Import gmap list.

Local Open Scope N_scope.

(** ** JavaScript strings *)

Abbreviation jsstring := (list N).

Definition js (s : string) : jsstring :=
  map N_of_ascii (list_ascii_of_string s).

(** ["..."] cannot be written inside a literal: [jsq s] is [s] written with
    an apostrophe wherever the source has a double quote. *)
Definition jsq (s : string) : jsstring :=
  map (fun c => if c =? 39 then 34 else c) (js s).

Arguments js : simpl never.
Arguments jsq : simpl never.

Definition jsstring_eqb (a b : jsstring) : bool := bool_decide (a = b).

(** [String.prototype.length] *)
Definition jslength (s : jsstring) : Z := Z.of_nat (length s).

(** WhiteSpace and LineTerminator code units: what [trim] strips and what
    [\s] matches. *)
Definition isWhiteSpace (c : N) : bool :=
  (c =? 0x09) || (c =? 0x0A) || (c =? 0x0B) || (c =? 0x0C) || (c =? 0x0D)
  || (c =? 0x20) || (c =? 0xA0) || (c =? 0x1680)
  || ((0x2000 <=? c) && (c <=? 0x200A))
  || (c =? 0x2028) || (c =? 0x2029) || (c =? 0x202F) || (c =? 0x205F)
  || (c =? 0x3000) || (c =? 0xFEFF).

Fixpoint dropWhile {A} (p : A -> bool) (l : list A) : list A :=
  match l with
  | [] => []
  | x :: r => if p x then dropWhile p r else l
  end.

Definition trimStart (s : jsstring) : jsstring := dropWhile isWhiteSpace s.
Definition trimEnd (s : jsstring) : jsstring :=
  rev (dropWhile isWhiteSpace (rev s)).

(** [String.prototype.trim] *)
Definition trim (s : jsstring) : jsstring := trimEnd (trimStart s).

(** [a.startsWith(p)] as a test, and the rest after the prefix. *)
Fixpoint stripPrefix (p s : jsstring) : option jsstring :=
  match p, s with
  | [], _ => Some s
  | _ :: _, [] => None
  | a :: p', b :: s' => if a =? b then stripPrefix p' s' else None
  end.

(** First occurrence of [pat] in [s]: the text before it and the text
    after it. *)
Fixpoint splitAtFirst (pat s : jsstring) : option (jsstring * jsstring) :=
  match stripPrefix pat s with
  | Some rest => Some ([], rest)
  | None =>
      match s with
      | [] => None
      | c :: r =>
          match splitAtFirst pat r with
          | Some (before, after) => Some (c :: before, after)
          | None => None
          end
      end
  end.

(** [String.prototype.includes] *)
Definition includes (s pat : jsstring) : bool :=
  match splitAtFirst pat s with Some _ => true | None => false end.

(** GetSubstitution for a string pattern (no capture groups): [$$] is a
    dollar, [$&] the match, [$`] the text before it, [$'] the text after
    it; any other [$] stands for itself. *)
Fixpoint getSubstitution (matched before after repl : jsstring) : jsstring :=
  match repl with
  | [] => []
  | c :: r =>
      if c =? 36 then
        match r with
        | d :: r' =>
            if d =? 36 then 36 :: getSubstitution matched before after r'
            else if d =? 38 then matched ++ getSubstitution matched before after r'
            else if d =? 96 then before ++ getSubstitution matched before after r'
            else if d =? 39 then after ++ getSubstitution matched before after r'
            else 36 :: getSubstitution matched before after r
        | [] => [36]
        end
      else c :: getSubstitution matched before after r
  end.

(** [s.replace(pat, repl)] with a string pattern: the first occurrence
    only. *)
Definition replaceFirst (pat repl s : jsstring) : jsstring :=
  match splitAtFirst pat s with
  | Some (before, after) =>
      before ++ getSubstitution pat before after repl ++ after
  | None => s
  end.

(** ** [sanitizeInput] and its four regular-expression passes *)

(** [.replace(/[<>]/g, '')] *)
Definition removeAngleBrackets (s : jsstring) : jsstring :=
  List.filter (fun c => negb ((c =? 60) || (c =? 62))) s.

(** [.replace(/\n+/g, ' ')]; [inRun] says that the previous code unit was a
    newline of the run being replaced. *)
Fixpoint collapseNewlinesFrom (inRun : bool) (s : jsstring) : jsstring :=
  match s with
  | [] => []
  | c :: r =>
      if c =? 10 then
        if inRun then collapseNewlinesFrom true r
        else 32 :: collapseNewlinesFrom true r
      else c :: collapseNewlinesFrom false r
  end.

Definition collapseNewlines (s : jsstring) : jsstring :=
  collapseNewlinesFrom false s.

(** [.replace(/"/g, '\\"')]: the replacement is a backslash and a quote. *)
Definition escapeQuotes (s : jsstring) : jsstring :=
  flat_map (fun c => if c =? 34 then [92; 34] else [c]) s.

(** [.replace(/\\/g, '\\\\')]: the replacement is two backslashes. *)
Definition escapeBackslashes (s : jsstring) : jsstring :=
  flat_map (fun c => if c =? 92 then [92; 92] else [c]) s.

Definition sanitizeInput (input : jsstring) : jsstring :=
  escapeBackslashes
    (escapeQuotes (collapseNewlines (removeAngleBrackets (trim input)))).

(** ** The prompt template

    [BRIEF_GENERATION_PROMPT_TEMPLATE], written with an apostrophe for each
    double quote of the source (the template has no apostrophe of its
    own). *)
Definition BRIEF_GENERATION_PROMPT_TEMPLATE : jsstring := jsq
"
<persona>
You are 'CreatorBrief AI,' an expert viral marketing strategist with 10+ years of experience in influencer marketing, content creation, and brand partnerships. You specialize in creating data-driven campaign briefs that maximize engagement and conversion rates across all social media platforms.
</persona>

<instructions>
Your task is to generate a comprehensive creator campaign brief based exclusively on the product information provided in the <context> tags below. 

The brief should include:
1. Campaign objectives with measurable KPIs
2. Content format recommendations (video, carousel, stories, etc.)
3. Platform-specific strategies
4. Messaging pillars and key talking points
5. Creative direction and visual guidelines
6. Timeline and deliverables
7. Performance benchmarks

Focus on creating actionable, specific guidance that creators can immediately implement.
</instructions>

<output_format>
Return ONLY a valid JSON object with this exact structure (no markdown formatting, no additional text):

{
  'campaignTitle': 'string',
  'objective': 'string',
  'platforms': ['string'],
  'contentFormats': ['string'],
  'messagingPillars': ['string'],
  'creativeDirection': {
    'visualStyle': 'string',
    'toneOfVoice': 'string',
    'mustHaveElements': ['string']
  },
  'deliverables': {
    'primaryContent': number,
    'stories': number,
    'timeline': 'string'
  },
  'kpis': {
    'primaryMetric': 'string',
    'targetEngagementRate': 'string',
    'expectedReach': 'string'
  },
  'callToAction': 'string',
  'complianceNotes': ['string'],
  'hashtags': ['string'],
  'budgetRecommendations': {
    'creatorFee': 'string',
    'adSpend': 'string'
  }
}
</output_format>

<rules>
- Base all recommendations on the provided product and audience data
- Ensure platform-specific optimization (Instagram vs TikTok vs YouTube)
- Include FTC compliance guidelines for sponsored content
- Provide specific, actionable creative direction
- Set realistic but ambitious performance targets
- Consider seasonal trends and current social media best practices
- Generate relevant hashtags for each platform
- Output ONLY valid JSON - no additional text or formatting
- Ensure all string values are properly escaped for JSON
</rules>

<context>
  <productDescription>
    {{productDescription}}
  </productDescription>
  <targetAudience>
    {{targetAudience}}
  </targetAudience>
  <campaignGoals>
    {{campaignGoals}}
  </campaignGoals>
  <budget>
    {{budget}}
  </budget>
  <platforms>
    {{platforms}}
  </platforms>
  <timeframe>
    {{timeframe}}
  </timeframe>
</context>
".

(** ** Results and thrown values *)

(** What a [catch] can receive: an [Error] with its message, or a value
    that is not an [Error] (thrown by an SDK). *)
Inductive Thrown :=
| JsError (message : jsstring)
| NonError.

Inductive Result (A : Type) :=
| Ok (a : A)
| Throw (e : Thrown).
Arguments Ok {A} a.
Arguments Throw {A} e.

(** [error instanceof Error ? error.message : 'Unknown error occurred'] *)
Definition messageOf (e : Thrown) : jsstring :=
  match e with
  | JsError m => m
  | NonError => js "Unknown error occurred"
  end.

(** ** The workflow's input *)

Record CreatorBriefInput := {
  productDescription : jsstring;
  targetAudience : jsstring;
  campaignGoals : option jsstring;
  budget : option jsstring;
  platforms : option (list jsstring);
  timeframe : option jsstring;
  userId : option jsstring (* For rate limiting *)
}.

(** The object literal handed to [createCacheKey] and [buildPrompt]: the
    six fields after the parameter defaults, in the order the literal lists
    them; [userId] is not among them. *)
Record BriefFields := {
  f_productDescription : jsstring;
  f_targetAudience : jsstring;
  f_campaignGoals : jsstring;
  f_budget : jsstring;
  f_platforms : list jsstring;
  f_timeframe : jsstring
}.

(** A destructuring default applies when the property is [undefined]. *)
Definition withDefault {A} (o : option A) (d : A) : A :=
  match o with Some v => v | None => d end.

Definition defaulted (i : CreatorBriefInput) : BriefFields := {|
  f_productDescription := productDescription i;
  f_targetAudience := targetAudience i;
  f_campaignGoals :=
    withDefault (campaignGoals i)
      (js "Increase brand awareness and drive conversions");
  f_budget := withDefault (budget i) (js "Not specified");
  f_platforms := withDefault (platforms i) [js "Instagram"; js "TikTok"];
  f_timeframe := withDefault (timeframe i) (js "30 days")
|}.

(** ** [validateInputs] *)

Definition validateInputs (productDescription targetAudience : jsstring)
  : Result unit :=
  if jsstring_eqb (trim productDescription) [] then
    Throw (JsError (js "Product description is required and cannot be empty"))
  else if jsstring_eqb (trim targetAudience) [] then
    Throw (JsError (js "Target audience is required and cannot be empty"))
  else if (1000 <? jslength productDescription)%Z then
    Throw (JsError (js "Product description must be less than 1000 characters"))
  else if (500 <? jslength targetAudience)%Z then
    Throw (JsError (js "Target audience must be less than 500 characters"))
  else Ok tt.

(** ** [createCacheKey] *)

Definition hexDigit (d : N) : N :=
  if d <? 10 then 48 + d else 87 + d.

(** UnicodeEscape: [\uXXXX] with lower-case hexadecimal digits. *)
Definition unicodeEscape (c : N) : jsstring :=
  [92; 117; hexDigit (c / 4096 mod 16); hexDigit (c / 256 mod 16);
   hexDigit (c / 16 mod 16); hexDigit (c mod 16)].

Definition isHighSurrogate (c : N) : bool := (0xD800 <=? c) && (c <=? 0xDBFF).
Definition isLowSurrogate (c : N) : bool := (0xDC00 <=? c) && (c <=? 0xDFFF).

(** The code units QuoteJSONString writes for one code unit that is not
    half of a surrogate pair. *)
Definition quoteJSONUnit (c : N) : jsstring :=
  if c =? 8 then [92; 98]
  else if c =? 9 then [92; 116]
  else if c =? 10 then [92; 110]
  else if c =? 12 then [92; 102]
  else if c =? 13 then [92; 114]
  else if c =? 34 then [92; 34]
  else if c =? 92 then [92; 92]
  else if (c <? 32) || isHighSurrogate c || isLowSurrogate c
  then unicodeEscape c
  else [c].

(** The body of QuoteJSONString; [pendingLow] says that the code unit at
    the head is the low half of a pair whose high half was just written. *)
Fixpoint quoteJSONBody (pendingLow : bool) (s : jsstring) : jsstring :=
  match s with
  | [] => []
  | c :: r =>
      if pendingLow then c :: quoteJSONBody false r
      else
        match r with
        | d :: _ =>
            if isHighSurrogate c && isLowSurrogate d
            then c :: quoteJSONBody true r
            else quoteJSONUnit c ++ quoteJSONBody false r
        | [] => quoteJSONUnit c
        end
  end.

Definition quoteJSONString (s : jsstring) : jsstring :=
  [34] ++ quoteJSONBody false s ++ [34].

(** [Array.prototype.join] on an array of strings. *)
Fixpoint join (sep : jsstring) (l : list jsstring) : jsstring :=
  match l with
  | [] => []
  | [x] => x
  | x :: r => x ++ sep ++ join sep r
  end.

(** [JSON.stringify(inputs)] on the six-field literal: no white space, the
    keys in insertion order. *)
Definition stringifyInputs (f : BriefFields) : jsstring :=
  js "{"
  ++ quoteJSONString (js "productDescription") ++ js ":"
  ++ quoteJSONString (f_productDescription f) ++ js ","
  ++ quoteJSONString (js "targetAudience") ++ js ":"
  ++ quoteJSONString (f_targetAudience f) ++ js ","
  ++ quoteJSONString (js "campaignGoals") ++ js ":"
  ++ quoteJSONString (f_campaignGoals f) ++ js ","
  ++ quoteJSONString (js "budget") ++ js ":"
  ++ quoteJSONString (f_budget f) ++ js ","
  ++ quoteJSONString (js "platforms") ++ js ":"
  ++ (js "[" ++ join (js ",") (map quoteJSONString (f_platforms f)) ++ js "]")
  ++ js ","
  ++ quoteJSONString (js "timeframe") ++ js ":"
  ++ quoteJSONString (f_timeframe f)
  ++ js "}".

(** ToInt32: the signed 32-bit integer congruent to [z] modulo 2^32. *)
Definition toInt32 (z : Z) : Z :=
  ((z + 2147483648) mod 4294967296 - 2147483648)%Z.

(** One turn of the loop:
    [hash = ((hash << 5) - hash) + char; hash = hash & hash]. *)
Definition hashStep (hash : Z) (char : N) : Z :=
  let hash := (toInt32 (Z.shiftl hash 5) - hash + Z.of_N char)%Z in
  toInt32 (Z.land hash hash).

Definition hashString (keyData : jsstring) : Z :=
  fold_left hashStep keyData 0%Z.

(** Number-to-string conversion of a non-negative integer below 10^21. *)
Definition numberToString (n : Z) : jsstring :=
  js (NilEmpty.string_of_uint (N.to_uint (Z.to_N n))).

Definition createCacheKey (inputs : BriefFields) : jsstring :=
  let keyData := stringifyInputs inputs in
  let hash := hashString keyData in
  js "brief_" ++ numberToString (Z.abs hash).

(** ** [buildPrompt] *)

Definition buildPrompt (inputs : BriefFields) : jsstring :=
  replaceFirst (js "{{timeframe}}") (sanitizeInput (f_timeframe inputs))
  (replaceFirst (js "{{platforms}}") (join (js ", ") (f_platforms inputs))
  (replaceFirst (js "{{budget}}") (sanitizeInput (f_budget inputs))
  (replaceFirst (js "{{campaignGoals}}") (sanitizeInput (f_campaignGoals inputs))
  (replaceFirst (js "{{targetAudience}}") (sanitizeInput (f_targetAudience inputs))
  (replaceFirst (js "{{productDescription}}")
     (sanitizeInput (f_productDescription inputs))
     BRIEF_GENERATION_PROMPT_TEMPLATE))))).

(** ** The world: the two private maps, the clock and the backends *)

Local Open Scope Z_scope.

Record CacheEntry := { data : jsstring; timestamp : Z }.

(** [this.config.provider]: the cast of [process.env.AI_PROVIDER] lets any
    string through, hence [OtherProvider]. The model name, the token budget
    and the temperature are handed to the SDK untouched and belong to the
    backend oracle. *)
Inductive Provider :=
| openai
| anthropic
| gemini
| OtherProvider (name : jsstring).

(** An element of the [content] array of an Anthropic response. *)
Inductive ContentBlock :=
| TextBlock (text : jsstring)
| OtherBlock (type : jsstring).

(** What the awaited SDK calls settle to, for the [n]-th backend call of
    the process and the prompt sent:
    - [openai_create]: [response.choices[0]?.message?.content]
      ([None] for [null] or [undefined]);
    - [anthropic_create]: [response.content];
    - [gemini_generate]: [response.text()].
    [Throw] is a rejected promise or a throwing accessor. *)
Record Backends := {
  openai_create : nat -> jsstring -> Result (option jsstring);
  anthropic_create : nat -> jsstring -> Result (list ContentBlock);
  gemini_generate : nat -> jsstring -> Result jsstring
}.

Record World := {
  config : Provider;
  cache : gmap jsstring CacheEntry;
  rateLimiter : gmap jsstring (list Z);
  clock : nat -> Z;       (* the successive values of [Date.now()] *)
  ticks : nat;            (* how many of them have been read *)
  backends : Backends;
  calls : list jsstring   (* the prompts sent to a backend, oldest first *)
}.

Definition set_cache (c : gmap jsstring CacheEntry) (w : World) : World :=
  {| config := config w; cache := c; rateLimiter := rateLimiter w;
     clock := clock w; ticks := ticks w; backends := backends w;
     calls := calls w |}.

Definition set_rateLimiter (r : gmap jsstring (list Z)) (w : World) : World :=
  {| config := config w; cache := cache w; rateLimiter := r;
     clock := clock w; ticks := ticks w; backends := backends w;
     calls := calls w |}.

Definition set_ticks (n : nat) (w : World) : World :=
  {| config := config w; cache := cache w; rateLimiter := rateLimiter w;
     clock := clock w; ticks := n; backends := backends w;
     calls := calls w |}.

Definition set_calls (l : list jsstring) (w : World) : World :=
  {| config := config w; cache := cache w; rateLimiter := rateLimiter w;
     clock := clock w; ticks := ticks w; backends := backends w;
     calls := l |}.

(** A freshly constructed [AIServiceWithCache]. *)
Definition newService (p : Provider) (clk : nat -> Z) (b : Backends) : World :=
  {| config := p; cache := ∅; rateLimiter := ∅; clock := clk; ticks := 0%nat;
     backends := b; calls := [] |}.

(** ** The monad of the service: state and exceptions *)

Definition M (A : Type) : Type := World -> Result A * World.

Definition ret {A} (a : A) : M A := fun w => (Ok a, w).
Definition throw {A} (e : Thrown) : M A := fun w => (Throw e, w).

Definition bind {A B} (m : M A) (k : A -> M B) : M B :=
  fun w =>
    match m w with
    | (Ok a, w') => k a w'
    | (Throw e, w') => (Throw e, w')
    end.

Definition tryCatch {A} (m : M A) (handler : Thrown -> M A) : M A :=
  fun w =>
    match m w with
    | (Ok a, w') => (Ok a, w')
    | (Throw e, w') => handler e w'
    end.

Definition lift {A} (r : Result A) : M A := fun w => (r, w).
Definition gets {A} (f : World -> A) : M A := fun w => (Ok (f w), w).
Definition modify (f : World -> World) : M unit := fun w => (Ok tt, f w).

Notation "'let*' x ':=' m 'in' k" := (bind m (fun x => k))
  (at level 10, x name, m at level 100, k at level 200).
Notation "m1 ';;' m2" := (bind m1 (fun _ => m2))
  (at level 100, m2 at level 200, right associativity).

(** [Date.now()] *)
Definition Date_now : M Z :=
  fun w => (Ok (clock w (ticks w)), set_ticks (S (ticks w)) w).

(** An awaited SDK call: the prompt is logged, the oracle answers. *)
Definition callBackend {A} (api : Backends -> nat -> jsstring -> Result A)
    (prompt : jsstring) : M A :=
  fun w =>
    (api (backends w) (length (calls w)) prompt,
     set_calls (calls w ++ [prompt]) w).

(** Truthiness of an optional string parameter: [undefined] and the empty
    string are falsy. *)
Definition truthy (o : option jsstring) : option jsstring :=
  match o with
  | Some (c :: s) => Some (c :: s)
  | _ => None
  end.

(** ** [AIService] *)

Definition systemPrompt : jsstring :=
  js "You are a professional marketing strategist. Always respond with valid JSON only, no additional formatting or text.".

Definition generateOpenAICompletion (prompt : jsstring) : M jsstring :=
  let* content := callBackend openai_create prompt in
  match truthy content with
  | None => throw (JsError (js "No response generated from OpenAI"))
  | Some content => ret (trim content)
  end.

(** The TypeError of reading a property of [undefined] (as [content.type]
    does when [response.content] is empty); its message is the engine's,
    here V8's. *)
Definition typeErrorReading (property : jsstring) : Thrown :=
  JsError (js "Cannot read properties of undefined (reading '"
           ++ property ++ js "')").

Definition generateAnthropicCompletion (prompt : jsstring) : M jsstring :=
  let* response := callBackend anthropic_create prompt in
  match response with
  | [] => throw (typeErrorReading (js "type"))
  | OtherBlock _ :: _ =>
      throw (JsError (js "Unexpected response type from Anthropic"))
  | TextBlock text :: _ => ret (trim text)
  end.

Definition generateGeminiCompletion (prompt : jsstring) : M jsstring :=
  let fullPrompt := systemPrompt ++ [10%N; 10%N] ++ prompt in
  let* content := callBackend gemini_generate fullPrompt in
  match truthy (Some content) with
  | None => throw (JsError (js "No response generated from Gemini"))
  | Some content => ret (trim content)
  end.

Definition generateCompletion (prompt : jsstring) : M jsstring :=
  tryCatch
    (let* provider := gets config in
     match provider with
     | openai => generateOpenAICompletion prompt
     | anthropic => generateAnthropicCompletion prompt
     | gemini => generateGeminiCompletion prompt
     | OtherProvider name =>
         throw (JsError (js "Unsupported AI provider: " ++ name))
     end)
    (fun error =>
       let errorMessage := messageOf error in
       throw (JsError (js "AI service failed: " ++ errorMessage))).

(** ** [AIServiceWithCache] *)

Definition isCacheValid (key : jsstring) : M bool :=
  let* cached := gets (fun w => cache w !! key) in
  match cached with
  | None => ret false
  | Some cached =>
      (* Cache valid for 1 hour *)
      let* now := Date_now in
      ret (now - timestamp cached <? 3600000)
  end.

Definition isRateLimited (key : jsstring) : M bool :=
  let* requests := gets (fun w => default [] (rateLimiter w !! key)) in
  let* now := Date_now in
  let oneHourAgo := now - 3600000 in
  (* Keep only requests from the last hour *)
  let recentRequests := List.filter (fun timestamp => oneHourAgo <? timestamp) requests in
  (* Allow max 10 requests per hour per key *)
  ret (10 <=? Z.of_nat (length recentRequests)).

Definition updateRateLimit (key : jsstring) : M unit :=
  let* requests := gets (fun w => default [] (rateLimiter w !! key)) in
  let* now := Date_now in
  modify (fun w => set_rateLimiter (<[key := requests ++ [now]]> (rateLimiter w)) w).

Definition cachePut (key : jsstring) (result : jsstring) : M unit :=
  let* now := Date_now in
  modify (fun w =>
    set_cache (<[key := {| data := result; timestamp := now |}]> (cache w)) w).

(** The end of [generateCompletionWithCache], once the request is
    admitted: the backend call and the two updates. *)
Definition completeAndStore (prompt : jsstring)
    (cacheKey rateLimitKey : option jsstring) : M jsstring :=
  (* Generate new completion *)
  let* result := generateCompletion prompt in
  (* Update cache and rate limiter *)
  (match truthy cacheKey with
   | Some key => cachePut key result
   | None => ret tt
   end);;
  (match truthy rateLimitKey with
   | Some key => updateRateLimit key
   | None => ret tt
   end);;
  ret result.

(** The part of [generateCompletionWithCache] after the cache check. *)
Definition admitAndComplete (prompt : jsstring)
    (cacheKey rateLimitKey : option jsstring) : M jsstring :=
  (* Check rate limits *)
  let* limited :=
    match truthy rateLimitKey with
    | Some key => isRateLimited key
    | None => ret false
    end in
  if limited : bool then
    throw (JsError (js "Rate limit exceeded. Please try again later."))
  else completeAndStore prompt cacheKey rateLimitKey.

Definition generateCompletionWithCache (prompt : jsstring)
    (cacheKey rateLimitKey : option jsstring) : M jsstring :=
  (* Check cache first *)
  match truthy cacheKey with
  | Some key =>
      let* valid := isCacheValid key in
      if valid : bool then
        let* cached := gets (fun w => cache w !! key) in
        match cached with
        | Some cached => ret (data cached)
        | None => throw (typeErrorReading (js "data"))
        end
      else admitAndComplete prompt cacheKey rateLimitKey
  | None => admitAndComplete prompt cacheKey rateLimitKey
  end.

(** ** JSON values and [JSON.parse]

    [JSON.parse] belongs to the language, not to the repository; it is
    written here after ECMA-262 so that the validator can be run on
    response texts. A number keeps its exact decimal value
    [(-1)^neg * mantissa * 10^exponent]; an object keeps its members in
    insertion order, a repeated key overwriting in place. *)

Record JSONNumber := { neg : bool; mantissa : N; exponent : Z }.

#[local] Set Warnings "-register-all".

Inductive JSValue :=
| JNull
| JBool (b : bool)
| JNumber (n : JSONNumber)
| JString (s : jsstring)
| JArray (elements : list JSValue)
| JObject (members : list (jsstring * JSValue)).

(** CreateDataProperty on an ordinary object. *)
Fixpoint setProperty (key : jsstring) (v : JSValue)
    (members : list (jsstring * JSValue)) : list (jsstring * JSValue) :=
  match members with
  | [] => [(key, v)]
  | (k, old) :: r =>
      if jsstring_eqb k key then (k, v) :: r
      else (k, old) :: setProperty key v r
  end.

Inductive Token :=
| TLBrace | TRBrace | TLBracket | TRBracket | TColon | TComma
| TValue (v : JSValue).   (* a string, a number, true, false or null *)

Inductive NumPhase :=
| NMinus | NZero | NInt | NDot | NFrac | NE | NESign | NExp.

Record NumAcc := {
  n_neg : bool; n_mant : N; n_fracDigits : Z; n_eneg : bool; n_exp : N
}.

Definition numberOf (a : NumAcc) : JSONNumber := {|
  neg := n_neg a;
  mantissa := n_mant a;
  exponent := (if n_eneg a then - Z.of_N (n_exp a) else Z.of_N (n_exp a))
              - n_fracDigits a
|}.

Inductive LexMode :=
| LIdle
| LString (acc : jsstring)                 (* reversed *)
| LEscape (acc : jsstring)
| LHex (acc : jsstring) (digits : list N)
| LNumber (phase : NumPhase) (a : NumAcc)
| LLiteral (rest : jsstring) (v : JSValue).

Definition isDigit (c : N) : bool := ((48 <=? c) && (c <=? 57))%N.

Definition hexValue (c : N) : option N :=
  if isDigit c then Some (c - 48)%N
  else if ((97 <=? c) && (c <=? 102))%N then Some (c - 87)%N
  else if ((65 <=? c) && (c <=? 70))%N then Some (c - 55)%N
  else None.

(** A code unit met outside of any token. *)
Definition lexIdle (toks : list Token) (c : N) : option (list Token * LexMode) :=
  let num ph neg m :=
    Some (toks, LNumber ph {| n_neg := neg; n_mant := m; n_fracDigits := 0;
                              n_eneg := false; n_exp := 0 |}) in
  if ((c =? 9) || (c =? 10) || (c =? 13) || (c =? 32))%N then Some (toks, LIdle)
  else if (c =? 123)%N then Some (TLBrace :: toks, LIdle)
  else if (c =? 125)%N then Some (TRBrace :: toks, LIdle)
  else if (c =? 91)%N then Some (TLBracket :: toks, LIdle)
  else if (c =? 93)%N then Some (TRBracket :: toks, LIdle)
  else if (c =? 58)%N then Some (TColon :: toks, LIdle)
  else if (c =? 44)%N then Some (TComma :: toks, LIdle)
  else if (c =? 34)%N then Some (toks, LString [])
  else if (c =? 45)%N then num NMinus true 0%N
  else if (c =? 48)%N then num NZero false 0%N
  else if isDigit c then num NInt false (c - 48)%N
  else if (c =? 116)%N then Some (toks, LLiteral (js "rue") (JBool true))
  else if (c =? 102)%N then Some (toks, LLiteral (js "alse") (JBool false))
  else if (c =? 110)%N then Some (toks, LLiteral (js "ull") JNull)
  else None.

Definition isE (c : N) : bool := ((c =? 101) || (c =? 69))%N.

Definition lexNumber (toks : list Token) (ph : NumPhase) (a : NumAcc) (c : N)
  : option (list Token * LexMode) :=
  let d := (c - 48)%N in
  let intDigit := {| n_neg := n_neg a; n_mant := (n_mant a * 10 + d)%N;
                     n_fracDigits := n_fracDigits a;
                     n_eneg := n_eneg a; n_exp := n_exp a |} in
  let fracDigit := {| n_neg := n_neg a; n_mant := (n_mant a * 10 + d)%N;
                      n_fracDigits := n_fracDigits a + 1;
                      n_eneg := n_eneg a; n_exp := n_exp a |} in
  let expDigit := {| n_neg := n_neg a; n_mant := n_mant a;
                     n_fracDigits := n_fracDigits a;
                     n_eneg := n_eneg a; n_exp := (n_exp a * 10 + d)%N |} in
  let expSign s := {| n_neg := n_neg a; n_mant := n_mant a;
                      n_fracDigits := n_fracDigits a;
                      n_eneg := s; n_exp := n_exp a |} in
  let finish := lexIdle (TValue (JNumber (numberOf a)) :: toks) c in
  match ph with
  | NMinus =>
      if (c =? 48)%N then Some (toks, LNumber NZero a)
      else if isDigit c then Some (toks, LNumber NInt intDigit)
      else None
  | NZero =>
      if (c =? 46)%N then Some (toks, LNumber NDot a)
      else if isE c then Some (toks, LNumber NE a)
      else if isDigit c then None
      else finish
  | NInt =>
      if isDigit c then Some (toks, LNumber NInt intDigit)
      else if (c =? 46)%N then Some (toks, LNumber NDot a)
      else if isE c then Some (toks, LNumber NE a)
      else finish
  | NDot =>
      if isDigit c then Some (toks, LNumber NFrac fracDigit) else None
  | NFrac =>
      if isDigit c then Some (toks, LNumber NFrac fracDigit)
      else if isE c then Some (toks, LNumber NE a)
      else finish
  | NE =>
      if (c =? 43)%N then Some (toks, LNumber NESign (expSign false))
      else if (c =? 45)%N then Some (toks, LNumber NESign (expSign true))
      else if isDigit c then Some (toks, LNumber NExp expDigit)
      else None
  | NESign =>
      if isDigit c then Some (toks, LNumber NExp expDigit) else None
  | NExp =>
      if isDigit c then Some (toks, LNumber NExp expDigit) else finish
  end.

(** One code unit of the text; the tokens are kept newest first. *)
Definition lexStep (st : list Token * LexMode) (c : N)
  : option (list Token * LexMode) :=
  let (toks, mode) := st in
  match mode with
  | LIdle => lexIdle toks c
  | LString acc =>
      if (c =? 34)%N then Some (TValue (JString (rev acc)) :: toks, LIdle)
      else if (c =? 92)%N then Some (toks, LEscape acc)
      else if (c <? 32)%N then None
      else Some (toks, LString (c :: acc))
  | LEscape acc =>
      if (c =? 34)%N then Some (toks, LString (34%N :: acc))
      else if (c =? 92)%N then Some (toks, LString (92%N :: acc))
      else if (c =? 47)%N then Some (toks, LString (47%N :: acc))
      else if (c =? 98)%N then Some (toks, LString (8%N :: acc))
      else if (c =? 102)%N then Some (toks, LString (12%N :: acc))
      else if (c =? 110)%N then Some (toks, LString (10%N :: acc))
      else if (c =? 114)%N then Some (toks, LString (13%N :: acc))
      else if (c =? 116)%N then Some (toks, LString (9%N :: acc))
      else if (c =? 117)%N then Some (toks, LHex acc [])
      else None
  | LHex acc digits =>
      match hexValue c with
      | None => None
      | Some v =>
          match digits with
          | [d1; d2; d3] =>
              Some (toks, LString ((d1 * 4096 + d2 * 256 + d3 * 16 + v)%N :: acc))
          | _ => Some (toks, LHex acc (digits ++ [v]))
          end
      end
  | LNumber ph a => lexNumber toks ph a c
  | LLiteral rest v =>
      match rest with
      | [] => lexIdle (TValue v :: toks) c
      | e :: rest' => if (c =? e)%N then Some (toks, LLiteral rest' v) else None
      end
  end.

Fixpoint lexFrom (st : list Token * LexMode) (s : jsstring)
  : option (list Token * LexMode) :=
  match s with
  | [] => Some st
  | c :: r =>
      match lexStep st c with
      | Some st' => lexFrom st' r
      | None => None
      end
  end.

(** The end of the text closes a number or a literal that is complete. *)
Definition lexEnd (st : list Token * LexMode) : option (list Token) :=
  let (toks, mode) := st in
  match mode with
  | LIdle => Some (rev toks)
  | LNumber (NZero | NInt | NFrac | NExp) a =>
      Some (rev (TValue (JNumber (numberOf a)) :: toks))
  | LLiteral [] v => Some (rev (TValue v :: toks))
  | _ => None
  end.

Definition lex (s : jsstring) : option (list Token) :=
  match lexFrom ([], LIdle) s with
  | Some st => lexEnd st
  | None => None
  end.

(** The containers that are open, innermost first. *)
Inductive Frame :=
| InArray (done : list JSValue)                          (* reversed *)
| InObject (done : list (jsstring * JSValue)) (key : jsstring).

Inductive ParseState :=
| PValue (stack : list Frame)         (* a value must start *)
| PFirstElement (stack : list Frame)  (* after [[]: a value or []] *)
| PFirstKey (stack : list Frame)      (* after [{]: a key or [}] *)
| PKey (done : list (jsstring * JSValue)) (stack : list Frame)
| PColon (done : list (jsstring * JSValue)) (key : jsstring) (stack : list Frame)
| PArrayNext (done : list JSValue) (stack : list Frame)
| PObjectNext (done : list (jsstring * JSValue)) (stack : list Frame)
| PDone (v : JSValue).

(** A value is complete: it goes into the innermost open container. *)
Definition complete (v : JSValue) (stack : list Frame) : ParseState :=
  match stack with
  | [] => PDone v
  | InArray done :: stack' => PArrayNext (v :: done) stack'
  | InObject done key :: stack' => PObjectNext (setProperty key v done) stack'
  end.

Definition startValue (stack : list Frame) (t : Token) : option ParseState :=
  match t with
  | TValue v => Some (complete v stack)
  | TLBracket => Some (PFirstElement stack)
  | TLBrace => Some (PFirstKey stack)
  | _ => None
  end.

Definition parseStep (st : ParseState) (t : Token) : option ParseState :=
  match st with
  | PValue stack => startValue stack t
  | PFirstElement stack =>
      match t with
      | TRBracket => Some (complete (JArray []) stack)
      | _ => startValue (InArray [] :: stack) t
      end
  | PFirstKey stack =>
      match t with
      | TRBrace => Some (complete (JObject []) stack)
      | TValue (JString k) => Some (PColon [] k stack)
      | _ => None
      end
  | PKey done stack =>
      match t with
      | TValue (JString k) => Some (PColon done k stack)
      | _ => None
      end
  | PColon done key stack =>
      match t with
      | TColon => Some (PValue (InObject done key :: stack))
      | _ => None
      end
  | PArrayNext done stack =>
      match t with
      | TComma => Some (PValue (InArray done :: stack))
      | TRBracket => Some (complete (JArray (rev done)) stack)
      | _ => None
      end
  | PObjectNext done stack =>
      match t with
      | TComma => Some (PKey done stack)
      | TRBrace => Some (complete (JObject done) stack)
      | _ => None
      end
  | PDone _ => None
  end.

Fixpoint parseFrom (st : ParseState) (toks : list Token) : option JSValue :=
  match toks with
  | [] => match st with PDone v => Some v | _ => None end
  | t :: r =>
      match parseStep st t with
      | Some st' => parseFrom st' r
      | None => None
      end
  end.

(** [JSON.parse(text)]: [None] is a SyntaxError. *)
Definition JSON_parse (text : jsstring) : option JSValue :=
  match lex text with
  | Some toks => parseFrom (PValue []) toks
  | None => None
  end.

(** ** [parseAndValidateResponse] *)

(** A JSON number converts to the Number [0] when its mantissa is zero or
    when it is at most 2^-1075, which rounds to zero. *)
Definition numberIsZero (n : JSONNumber) : bool :=
  (mantissa n =? 0)%N
  || ((exponent n <? 0)
      && (Z.of_N (mantissa n) * 2 ^ 1075 <=? 10 ^ (- exponent n))).

(** ToBoolean of [briefObj[field]]; [None] is [undefined]. *)
Definition toBoolean (v : option JSValue) : bool :=
  match v with
  | None => false
  | Some JNull => false
  | Some (JBool b) => b
  | Some (JNumber n) => negb (numberIsZero n)
  | Some (JString s) => negb (jsstring_eqb s [])
  | Some (JArray _) => true
  | Some (JObject _) => true
  end.

(** [typeof v === 'object'] *)
Definition typeofIsObject (v : option JSValue) : bool :=
  match v with
  | Some JNull | Some (JArray _) | Some (JObject _) => true
  | _ => false
  end.

Fixpoint lookupMember (field : jsstring) (members : list (jsstring * JSValue))
  : option JSValue :=
  match members with
  | [] => None
  | (k, v) :: r => if jsstring_eqb k field then Some v else lookupMember field r
  end.

(** [briefObj[field]] for the eight field names the validator reads: none
    of them is a property of an array or of [Object.prototype]. *)
Definition getProperty (briefObj : JSValue) (field : jsstring) : option JSValue :=
  match briefObj with
  | JObject members => lookupMember field members
  | _ => None
  end.

(** [!Array.isArray(v) || v.length === 0] *)
Definition notNonEmptyArray (v : option JSValue) : bool :=
  match v with
  | Some (JArray (_ :: _)) => false
  | _ => true
  end.

(** [/^```json\s*/i]: the letters match in either case. *)
Definition stripJsonFenceOpener (s : jsstring) : jsstring :=
  match s with
  | 96 :: 96 :: 96 :: j :: s' :: o :: n :: rest =>
      if (((j =? 106) || (j =? 74)) && ((s' =? 115) || (s' =? 83))
          && ((o =? 111) || (o =? 79)) && ((n =? 110) || (n =? 78)))%N
      then dropWhile isWhiteSpace rest
      else s
  | _ => s
  end%N.

(** [/\s*```$/]: the fence that ends the text, with the white space before
    it. *)
Definition stripFenceCloser (s : jsstring) : jsstring :=
  match rev s with
  | 96 :: 96 :: 96 :: before => rev (dropWhile isWhiteSpace before)
  | _ => s
  end%N.

(** [/^```\s*/] *)
Definition stripFenceOpener (s : jsstring) : jsstring :=
  match s with
  | 96 :: 96 :: 96 :: rest => dropWhile isWhiteSpace rest
  | _ => s
  end%N.

Definition cleanResponse (response : jsstring) : jsstring :=
  trim (stripFenceOpener (stripFenceCloser (stripJsonFenceOpener (trim response)))).

Definition requiredFields : list jsstring :=
  [js "campaignTitle"; js "objective"; js "platforms"; js "contentFormats";
   js "messagingPillars"].

Definition arrayFields : list jsstring :=
  [js "platforms"; js "contentFormats"; js "messagingPillars"].

Fixpoint checkRequiredFields (briefObj : JSValue) (fields : list jsstring)
  : Result unit :=
  match fields with
  | [] => Ok tt
  | field :: r =>
      if negb (toBoolean (getProperty briefObj field)) then
        Throw (JsError (js "Missing required field in AI response: " ++ field))
      else checkRequiredFields briefObj r
  end.

Fixpoint checkArrayFields (briefObj : JSValue) (fields : list jsstring)
  : Result unit :=
  match fields with
  | [] => Ok tt
  | field :: r =>
      if notNonEmptyArray (getProperty briefObj field) then
        Throw (JsError (field ++ js " must be a non-empty array"))
      else checkArrayFields briefObj r
  end.

(** [!briefObj.f || typeof briefObj.f !== 'object'] *)
Definition notAnObject (v : option JSValue) : bool :=
  negb (toBoolean v) || negb (typeofIsObject v).

(** The checks that follow [JSON.parse]. *)
Definition validateBrief (brief : JSValue) : Result JSValue :=
  (* Type guard to ensure brief is an object *)
  if notAnObject (Some brief) then
    Throw (JsError (js "AI response must be a valid object"))
  else
    let briefObj := brief in
    (* Validate required fields *)
    match checkRequiredFields briefObj requiredFields with
    | Throw e => Throw e
    | Ok _ =>
    (* Validate array fields *)
    match checkArrayFields briefObj arrayFields with
    | Throw e => Throw e
    | Ok _ =>
    (* Validate nested objects *)
    if notAnObject (getProperty briefObj (js "creativeDirection")) then
      Throw (JsError (js "creativeDirection must be an object"))
    else if notAnObject (getProperty briefObj (js "deliverables")) then
      Throw (JsError (js "deliverables must be an object"))
    else if notAnObject (getProperty briefObj (js "kpis")) then
      Throw (JsError (js "kpis must be an object"))
    else Ok briefObj
    end end.

Definition parseAndValidateResponse (response : jsstring) : Result JSValue :=
  let cleanResponse := cleanResponse response in
  match JSON_parse cleanResponse with
  | None => Throw (JsError (js "Invalid JSON response from AI service"))
  | Some brief => validateBrief brief
  end.

(** ** [generateCreatorBrief] *)

(** The [catch] clause of the workflow: the error it throws for the error
    it caught. *)
Definition surfaced (error : Thrown) : Thrown :=
  let errorMessage := messageOf error in
  if includes errorMessage (js "Rate limit exceeded") then
    JsError (js "Too many requests. Please try again in an hour.")
  else if includes errorMessage (js "JSON") then
    JsError (js "Failed to process AI response. Please try again.")
  else
    JsError (js "Failed to generate creator brief: " ++ errorMessage).

Definition generateCreatorBrief (input : CreatorBriefInput) : M JSValue :=
  let inputs := defaulted input in
  tryCatch
    ((* Input validation *)
     lift (validateInputs (productDescription input) (targetAudience input));;
     (* Create cache key based on inputs *)
     let cacheKey := createCacheKey inputs in
     (* Generate prompt *)
     let prompt := buildPrompt inputs in
     (* Call AI service with caching and rate limiting *)
     let* response :=
       generateCompletionWithCache prompt (Some cacheKey) (userId input) in
     (* Parse and validate JSON response *)
     let* brief := lift (parseAndValidateResponse response) in
     ret brief)
    (fun error => throw (surfaced error)).

(** ** Notions used to state the properties *)

(** The call the workflow makes to the orchestrator. *)
Definition completionFor (input : CreatorBriefInput) : M jsstring :=
  generateCompletionWithCache (buildPrompt (defaulted input))
    (Some (createCacheKey (defaulted input))) (userId input).

(** What the workflow settles to once the orchestrator has returned the raw
    text [response]. *)
Definition briefOf (response : jsstring) : Result JSValue :=
  match parseAndValidateResponse response with
  | Ok brief => Ok brief
  | Throw e => Throw (surfaced e)
  end.

(** The four messages of [validateInputs]. *)
Definition validationMessages : list jsstring :=
  [js "Product description is required and cannot be empty";
   js "Target audience is required and cannot be empty";
   js "Product description must be less than 1000 characters";
   js "Target audience must be less than 500 characters"].

(** The timestamps recorded for a caller: [this.rateLimiter.get(key) || []]. *)
Definition requestsOf (w : World) (key : jsstring) : list Z :=
  default [] (rateLimiter w !! key).

(** The timestamps strictly newer than [now] minus one hour. *)
Definition recent (now : Z) (requests : list Z) : list Z :=
  List.filter (fun timestamp => now - 3600000 <? timestamp) requests.

(** The next value of [Date.now()]. *)
Definition nextNow (w : World) : Z := clock w (ticks w).

(** The world after one reading of the clock. *)
Definition tick (w : World) : World := set_ticks (S (ticks w)) w.

(** The cache check of [generateCompletionWithCache] succeeds: the key is
    truthy and its entry is less than one hour old at the next reading of
    the clock. *)
Definition cacheHit (cacheKey : option jsstring) (w : World) : bool :=
  match truthy cacheKey with
  | Some key =>
      match cache w !! key with
      | Some cached => nextNow w - timestamp cached <? 3600000
      | None => false
      end
  | None => false
  end.

(** The world after the cache check: the clock is read when the key is
    truthy and has an entry. *)
Definition afterCacheCheck (cacheKey : option jsstring) (w : World) : World :=
  match truthy cacheKey with
  | Some key =>
      match cache w !! key with
      | Some _ => tick w
      | None => w
      end
  | None => w
  end.

(** The world after [this.cache.set], when the cache key is truthy. *)
Definition putWorld (cacheKey : option jsstring) (result : jsstring)
    (w : World) : World :=
  match truthy cacheKey with
  | Some key => snd (cachePut key result w)
  | None => w
  end.

(** The world after [this.updateRateLimit], when the rate-limit key is
    truthy. *)
Definition recordWorld (rateLimitKey : option jsstring) (w : World) : World :=
  match truthy rateLimitKey with
  | Some key => snd (updateRateLimit key w)
  | None => w
  end.

(** The request is refused by the limiter. *)
Definition limitedAt (rateLimitKey : option jsstring) (w : World) : bool :=
  match truthy rateLimitKey with
  | Some key => 10 <=? Z.of_nat (length (recent (nextNow w) (requestsOf w key)))
  | None => false
  end.

(** The world after the limiter's check. *)
Definition afterRateCheck (rateLimitKey : option jsstring) (w : World) : World :=
  match truthy rateLimitKey with
  | Some _ => tick w
  | None => w
  end.

Definition rateLimitError : Thrown :=
  JsError (js "Rate limit exceeded. Please try again later.").


(** The entry stored under [key] is less than one hour old at the next
    reading of the clock. *)
Definition fresh (key : jsstring) (w : World) : Prop :=
  forall cached, cache w !! key = Some cached ->
                 nextNow w - timestamp cached < 3600000.

(** The sanitized, defaulted field values: [sanitizeInput] on the five
    free-text fields, the platform list as it is. *)
Definition sanitizedFields (f : BriefFields) : BriefFields := {|
  f_productDescription := sanitizeInput (f_productDescription f);
  f_targetAudience := sanitizeInput (f_targetAudience f);
  f_campaignGoals := sanitizeInput (f_campaignGoals f);
  f_budget := sanitizeInput (f_budget f);
  f_platforms := f_platforms f;
  f_timeframe := sanitizeInput (f_timeframe f)
|}.

(** *** Sample data for the closed instances *)

Definition sampleBriefText : jsstring := jsq
"{'campaignTitle':'T','objective':'O','platforms':['Instagram','TikTok'],'contentFormats':['video'],'messagingPillars':['p'],'creativeDirection':{},'deliverables':{'stories':2},'kpis':{}}".

(** Backends that answer every prompt with [text]. *)
Definition answering (text : jsstring) : Backends := {|
  openai_create := fun _ _ => Ok (Some text);
  anthropic_create := fun _ _ => Ok [TextBlock text];
  gemini_generate := fun _ _ => Ok text
|}.

(** A clock that advances by [step] milliseconds at each reading. *)
Definition steadyClock (step : Z) : nat -> Z := fun n => step * Z.of_nat n.

Definition sampleInput (pd : string) (caller : string) : CreatorBriefInput := {|
  productDescription := js pd;
  targetAudience := js "Millennials interested in sustainability";
  campaignGoals := None; budget := None; platforms := None; timeframe := None;
  userId := Some (js caller)
|}.



(** [n] requests in a row from one caller, without a fingerprint: the
    results, oldest first, and the world they leave. *)
Fixpoint requestMany (n : nat) (prompt uid : jsstring) (w : World)
  : list (Result jsstring) * World :=
  match n with
  | O => ([], w)
  | S n' =>
      let (result, w1) :=
        generateCompletionWithCache prompt None (Some uid) w in
      let (results, w2) := requestMany n' prompt uid w1 in
      (result :: results, w2)
  end.

Definition isOk {A} (r : Result A) : bool :=
  match r with Ok _ => true | Throw _ => false end.

(** The failure of the backend call that [generateCompletion] would make
    in [w], as the adapter detects it: the message of what the SDK threw,
    or the adapter's own message for a response without usable text or of
    an unexpected shape; [None] when the backend returns a text. *)
Definition backendFailure (w : World) (prompt : jsstring) : option jsstring :=
  let n := length (calls w) in
  match config w with
  | openai =>
      match openai_create (backends w) n prompt with
      | Throw e => Some (messageOf e)
      | Ok content =>
          match truthy content with
          | None => Some (js "No response generated from OpenAI")
          | Some _ => None
          end
      end
  | anthropic =>
      match anthropic_create (backends w) n prompt with
      | Throw e => Some (messageOf e)
      | Ok [] => Some (messageOf (typeErrorReading (js "type")))
      | Ok (OtherBlock _ :: _) =>
          Some (js "Unexpected response type from Anthropic")
      | Ok (TextBlock _ :: _) => None
      end
  | gemini =>
      match gemini_generate (backends w) n
              (systemPrompt ++ [10%N; 10%N] ++ prompt) with
      | Throw e => Some (messageOf e)
      | Ok content =>
          match truthy (Some content) with
          | None => Some (js "No response generated from Gemini")
          | Some _ => None
          end
      end
  | OtherProvider name => Some (js "Unsupported AI provider: " ++ name)
  end.

(** Backends whose every call is rejected with the message [m]. *)
Definition rejecting (m : jsstring) : Backends := {|
  openai_create := fun _ _ => Throw (JsError m);
  anthropic_create := fun _ _ => Throw (JsError m);
  gemini_generate := fun _ _ => Throw (JsError m)
|}.

(** *** The shape of an accepted brief *)

Definition isNonEmptyArray (v : option JSValue) : bool :=
  match v with
  | Some (JArray (_ :: _)) => true
  | _ => false
  end.

(** An object in the sense of [typeof]: a JSON object or an array. *)
Definition isObjectOrArray (v : option JSValue) : bool :=
  match v with
  | Some (JObject _) | Some (JArray _) => true
  | _ => false
  end.

Definition subObjectFields : list jsstring :=
  [js "creativeDirection"; js "deliverables"; js "kpis"].

(** What the validator accepts: a JSON object whose title and objective
    are truthy, whose three list fields are non-empty arrays and whose
    three nested fields are objects or arrays. *)
Definition acceptable (brief : JSValue) : bool :=
  match brief with
  | JObject _ =>
      forallb (fun f => toBoolean (getProperty brief f))
        [js "campaignTitle"; js "objective"]
      && forallb (fun f => isNonEmptyArray (getProperty brief f)) arrayFields
      && forallb (fun f => isObjectOrArray (getProperty brief f)) subObjectFields
  | _ => false
  end.

(** Why a parsed value is refused, and the message that says so. *)
Inductive Rejection :=
| NotAnObject
| MissingField (field : jsstring)
| NotANonEmptyArray (field : jsstring)
| NotASubObject (field : jsstring).

Definition rejectionMessage (r : Rejection) : jsstring :=
  match r with
  | NotAnObject => js "AI response must be a valid object"
  | MissingField field => js "Missing required field in AI response: " ++ field
  | NotANonEmptyArray field => field ++ js " must be a non-empty array"
  | NotASubObject field => field ++ js " must be an object"
  end.

Definition rejects (brief : JSValue) (r : Rejection) : Prop :=
  match r with
  | NotAnObject => isObjectOrArray (Some brief) = false
  | MissingField field =>
      In field requiredFields /\ toBoolean (getProperty brief field) = false
  | NotANonEmptyArray field =>
      In field arrayFields /\ isNonEmptyArray (getProperty brief field) = false
  | NotASubObject field =>
      In field subObjectFields
      /\ isObjectOrArray (getProperty brief field) = false
  end.

Definition isPresent (v : option JSValue) : bool :=
  match v with Some _ => true | None => false end.

Definition isJSONObject (v : option JSValue) : bool :=
  match v with Some (JObject _) => true | _ => false end.

(** The shape in the specification's words: an object that has the five
    required fields, whose three list fields are non-empty arrays and whose
    three nested fields are present and are objects. *)
Definition specAccepts (brief : JSValue) : bool :=
  isJSONObject (Some brief)
  && forallb (fun f => isPresent (getProperty brief f)) requiredFields
  && forallb (fun f => isNonEmptyArray (getProperty brief f)) arrayFields
  && forallb (fun f => isJSONObject (getProperty brief f)) subObjectFields.

Definition emptyTitleText : jsstring := jsq
"{'campaignTitle':'','objective':'O','platforms':['Instagram'],'contentFormats':['video'],'messagingPillars':['p'],'creativeDirection':{},'deliverables':{},'kpis':{}}".

Definition arrayDirectionText : jsstring := jsq
"{'campaignTitle':'T','objective':'O','platforms':['Instagram'],'contentFormats':['video'],'messagingPillars':['p'],'creativeDirection':[],'deliverables':{},'kpis':{}}".

(** The escaping in the specification's words: every quote becomes a
    backslash and a quote, every backslash becomes two backslashes. *)
Definition escapeQuotesAndBackslashes_spec (s : jsstring) : jsstring :=
  flat_map (fun c => if c =? 34 then [92; 34]
                     else if c =? 92 then [92; 92] else [c])%N s.

(** The sanitization transform in the specification's words. *)
Definition sanitizeInput_spec (input : jsstring) : jsstring :=
  escapeQuotesAndBackslashes_spec
    (collapseNewlines (removeAngleBrackets (trim input))).

(** The worlds a service can be in: a new service, and what any call of
    [generateCompletionWithCache] leaves. *)
Inductive reachable : World -> Prop :=
| reachable_new p clk b : reachable (newService p clk b)
| reachable_call prompt cacheKey rateLimitKey w :
    reachable w ->
    reachable (snd (generateCompletionWithCache prompt cacheKey rateLimitKey w)).

(** *** Notions for the further properties *)

(** A code unit that [sanitizeInput] neither removes nor rewrites. *)
Definition needsNoEscape (c : N) : bool :=
  negb ((c =? 60) || (c =? 62) || (c =? 10) || (c =? 34) || (c =? 92))%N.

(** The fields with the five free-text ones trimmed. *)
Definition trimmedFields (f : BriefFields) : BriefFields := {|
  f_productDescription := trim (f_productDescription f);
  f_targetAudience := trim (f_targetAudience f);
  f_campaignGoals := trim (f_campaignGoals f);
  f_budget := trim (f_budget f);
  f_platforms := f_platforms f;
  f_timeframe := trim (f_timeframe f)
|}.

(** A code unit that [JSON.stringify] writes as it is. *)
Definition plainUnit (c : N) : bool :=
  ((32 <=? c) && negb (c =? 34) && negb (c =? 92)
   && negb (isHighSurrogate c) && negb (isLowSurrogate c))%N.

(** [f] with another product description. *)
Definition withProductDescription (pd : jsstring) (f : BriefFields)
  : BriefFields := {|
  f_productDescription := pd;
  f_targetAudience := f_targetAudience f;
  f_campaignGoals := f_campaignGoals f;
  f_budget := f_budget f;
  f_platforms := f_platforms f;
  f_timeframe := f_timeframe f
|}.

(** The three messages the workflow can fail with; the third carries the
    message [m] of the error it caught. *)
Definition tooManyRequests : jsstring :=
  js "Too many requests. Please try again in an hour.".
Definition failedToProcess : jsstring :=
  js "Failed to process AI response. Please try again.".
Definition failedToGenerate (m : jsstring) : jsstring :=
  js "Failed to generate creator brief: " ++ m.

(** A service whose limiter already holds [stamps] for the caller [uid]. *)
Definition serviceWithWindow (uid : jsstring) (stamps : list Z)
    (clk : nat -> Z) (b : Backends) : World :=
  set_rateLimiter (<[uid := stamps]> ∅) (newService openai clk b).

(** A service whose cache already holds [text], stored at [time], under
    [key]. *)
Definition serviceWithEntry (key text : jsstring) (time : Z)
    (clk : nat -> Z) (b : Backends) : World :=
  set_cache (<[key := {| data := text; timestamp := time |}]> ∅)
    (newService openai clk b).

(** The six placeholders, in the order [buildPrompt] replaces them. *)
Definition placeholders : list jsstring :=
  [js "{{productDescription}}"; js "{{targetAudience}}";
   js "{{campaignGoals}}"; js "{{budget}}"; js "{{platforms}}";
   js "{{timeframe}}"].

(** The text cut at the first occurrence of each placeholder in turn. *)
Fixpoint cutAt (phs : list jsstring) (s : jsstring) : list jsstring :=
  match phs with
  | [] => [s]
  | ph :: phs' =>
      match splitAtFirst ph s with
      | Some (before, after) => before :: cutAt phs' after
      | None => [s]
      end
  end.

(** The [i]-th of the seven pieces of the template around its
    placeholders. *)
Definition templatePiece (i : nat) : jsstring :=
  nth i (cutAt placeholders BRIEF_GENERATION_PROMPT_TEMPLATE) [].

(** The template with six texts in the place of its placeholders. *)
Definition filledTemplate (pd ta cg b pl tf : jsstring) : jsstring :=
  templatePiece 0 ++ pd ++ templatePiece 1 ++ ta ++ templatePiece 2 ++ cg
  ++ templatePiece 3 ++ b ++ templatePiece 4 ++ pl ++ templatePiece 5 ++ tf
  ++ templatePiece 6.

(** A text with no dollar sign and no opening brace: [replace] copies it
    as it is, and it cannot form a placeholder. *)
Definition templateSafe (s : jsstring) : bool :=
  forallb (fun c => negb (c =? 36) && negb (c =? 123))%N s.

(** Every opening brace is followed by a code unit that is not one. *)
Fixpoint braceSafe (s : jsstring) : bool :=
  match s with
  | [] => true
  | c :: r =>
      if (c =? 123)%N then
        match r with
        | d :: _ => negb (d =? 123)%N && braceSafe r
        | [] => false
        end
      else braceSafe r
  end.

(** The language tag of a fence opener that the validator strips: "json"
    in either case of each letter, or nothing. *)
Definition isJsonTag (tag : jsstring) : bool :=
  match tag with
  | [] => true
  | [j; s; o; n] =>
      (((j =? 106) || (j =? 74)) && ((s =? 115) || (s =? 83))
       && ((o =? 111) || (o =? 79)) && ((n =? 110) || (n =? 78)))%N
  | _ => false
  end.

(** A text between a fence opener with its tag and a closing fence, with
    white space [ws1] and [ws2] inside the fences. *)
Definition fenced (tag ws1 text ws2 : jsstring) : jsstring :=
  [96; 96; 96]%N ++ tag ++ ws1 ++ text ++ ws2 ++ [96; 96; 96]%N.

(** * Properties *)

Lemma generateCreatorBrief_run (input : CreatorBriefInput) (w : World) :
  generateCreatorBrief input w =
  match validateInputs (productDescription input) (targetAudience input) with
  | Throw e => (Throw (surfaced e), w)
  | Ok _ =>
      match completionFor input w with
      | (Ok response, w') => (briefOf response, w')
      | (Throw e, w') => (Throw (surfaced e), w')
      end
  end.
Proof.
  unfold generateCreatorBrief, completionFor, briefOf, tryCatch, bind, lift,
    ret, throw.
  destruct (validateInputs _ _) as [[]|e]; [|reflexivity].
  destruct (generateCompletionWithCache _ _ _ w) as [[response|e] w'];
    [|reflexivity].
  destruct (parseAndValidateResponse response); reflexivity.
Qed.

Lemma validateInputs_throws (pd ta : jsstring) :
  trim pd = [] \/ 1000 < jslength pd \/ trim ta = [] \/ 500 < jslength ta ->
  exists msg, In msg validationMessages /\
              validateInputs pd ta = Throw (JsError msg).
Proof.
  intros Hbad. unfold validateInputs, jsstring_eqb, validationMessages.
  destruct (bool_decide (trim pd = [])) eqn:E1;
    [eexists; split; [|reflexivity]; simpl; tauto|].
  destruct (bool_decide (trim ta = [])) eqn:E2;
    [eexists; split; [|reflexivity]; simpl; tauto|].
  destruct (Z.ltb_spec 1000 (jslength pd));
    [eexists; split; [|reflexivity]; simpl; tauto|].
  destruct (Z.ltb_spec 500 (jslength ta));
    [eexists; split; [|reflexivity]; simpl; tauto|].
  apply bool_decide_eq_false in E1, E2.
  exfalso. destruct Hbad as [?|[?|[?|?]]]; try contradiction; lia.
Qed.

Lemma validateInputs_ok (pd ta : jsstring) :
  validateInputs pd ta = Ok tt <->
  trim pd <> [] /\ trim ta <> [] /\ jslength pd <= 1000 /\ jslength ta <= 500.
Proof.
  unfold validateInputs, jsstring_eqb.
  destruct (bool_decide (trim pd = [])) eqn:E1;
    [apply bool_decide_eq_true in E1; split; [discriminate|tauto]|].
  destruct (bool_decide (trim ta = [])) eqn:E2;
    [apply bool_decide_eq_true in E2; split; [discriminate|tauto]|].
  apply bool_decide_eq_false in E1, E2.
  destruct (Z.ltb_spec 1000 (jslength pd)); [split; [discriminate|lia]|].
  destruct (Z.ltb_spec 500 (jslength ta)); [split; [discriminate|lia]|].
  split; [intros _; repeat split; (assumption || lia)|reflexivity].
Qed.

Lemma surfaced_validation (msg : jsstring) :
  In msg validationMessages ->
  surfaced (JsError msg) =
  JsError (js "Failed to generate creator brief: " ++ msg).
Proof.
  unfold validationMessages. simpl.
  intros [<-|[<-|[<-|[<-|[]]]]]; vm_compute; reflexivity.
Qed.

(** C6. An input whose product description is empty after trimming or
    longer than 1000 code units, or whose target audience is empty after
    trimming or longer than 500 code units, makes [generateCreatorBrief]
    throw one of the four validation messages (behind the workflow's
    prefix), whatever the world is, and leaves the world as it was: no
    backend call is logged, the cache and the rate limiter are not written,
    and the clock is not even read. *)
Theorem validation_fails_fast (input : CreatorBriefInput) :
  trim (productDescription input) = []
  \/ 1000 < jslength (productDescription input)
  \/ trim (targetAudience input) = []
  \/ 500 < jslength (targetAudience input) ->
  exists msg,
    In msg validationMessages /\
    forall w : World,
      generateCreatorBrief input w =
      (Throw (JsError (js "Failed to generate creator brief: " ++ msg)), w).
Proof.
  intros H. destruct (validateInputs_throws _ _ H) as (msg & Hin & Hv).
  exists msg. split; [exact Hin|]. intros w.
  rewrite generateCreatorBrief_run, Hv, (surfaced_validation _ Hin).
  reflexivity.
Qed.

(** ** The orchestrator, stage by stage *)

Ltac world_simpl :=
  cbn [config cache rateLimiter clock ticks backends calls
       set_calls set_ticks set_cache set_rateLimiter fst snd] in *.

Lemma isCacheValid_run (key : jsstring) (w : World) :
  isCacheValid key w =
  match cache w !! key with
  | Some cached => (Ok (nextNow w - timestamp cached <? 3600000), tick w)
  | None => (Ok false, w)
  end.
Proof.
  unfold isCacheValid, bind, gets, ret, Date_now, nextNow, tick.
  destruct (cache w !! key); reflexivity.
Qed.

Lemma isRateLimited_run (key : jsstring) (w : World) :
  isRateLimited key w =
  (Ok (10 <=? Z.of_nat (length (recent (nextNow w) (requestsOf w key)))),
   tick w).
Proof. reflexivity. Qed.

Lemma updateRateLimit_run (key : jsstring) (w : World) :
  updateRateLimit key w =
  (Ok tt,
   set_rateLimiter (<[key := requestsOf w key ++ [nextNow w]]> (rateLimiter w))
     (tick w)).
Proof. reflexivity. Qed.

Lemma cachePut_run (key result : jsstring) (w : World) :
  cachePut key result w =
  (Ok tt,
   set_cache (<[key := {| data := result; timestamp := nextNow w |}]> (cache w))
     (tick w)).
Proof. reflexivity. Qed.

(** The adapter changes nothing but the log of backend calls, to which it
    adds at most one prompt. *)
Lemma generateCompletion_frame (prompt : jsstring) (w : World) :
  exists l,
    snd (generateCompletion prompt w) = set_calls l w
    /\ (l = calls w \/ exists sent, l = calls w ++ [sent]).
Proof.
  unfold generateCompletion, tryCatch, bind, gets, throw.
  destruct w as [cfg c r clk t b l]. world_simpl.
  destruct cfg.
  - exists (l ++ [prompt]). split; [|right; eauto].
    unfold generateOpenAICompletion, bind, callBackend, throw, ret.
    world_simpl.
    destruct (openai_create b (length l) prompt) as [content|e];
      [destruct (truthy content)|]; reflexivity.
  - exists (l ++ [prompt]). split; [|right; eauto].
    unfold generateAnthropicCompletion, bind, callBackend, throw, ret.
    world_simpl.
    destruct (anthropic_create b (length l) prompt) as [[|[text|ty] rest]|e];
      reflexivity.
  - exists (l ++ [systemPrompt ++ [10%N; 10%N] ++ prompt]).
    split; [|right; eauto].
    unfold generateGeminiCompletion, bind, callBackend, throw, ret.
    world_simpl.
    destruct (gemini_generate b (length l) _) as [content|e];
      [destruct (truthy (Some content))|]; reflexivity.
  - exists l. split; [reflexivity|left; reflexivity].
Qed.

(** A text comes from exactly one backend call. *)
Lemma generateCompletion_ok_calls (prompt result : jsstring) (w w' : World) :
  generateCompletion prompt w = (Ok result, w') ->
  exists sent, w' = set_calls (calls w ++ [sent]) w.
Proof.
  unfold generateCompletion, tryCatch, bind, gets, throw.
  destruct w as [cfg c r clk t b l]. world_simpl.
  destruct cfg.
  - unfold generateOpenAICompletion, bind, callBackend, throw, ret.
    world_simpl.
    destruct (openai_create b (length l) prompt) as [content|e];
      [destruct (truthy content)|]; intros H; inversion H. eauto.
  - unfold generateAnthropicCompletion, bind, callBackend, throw, ret.
    world_simpl.
    destruct (anthropic_create b (length l) prompt) as [[|[text|ty] rest]|e];
      intros H; inversion H. eauto.
  - unfold generateGeminiCompletion, bind, callBackend, throw, ret.
    world_simpl.
    destruct (gemini_generate b (length l) _) as [content|e];
      [destruct (truthy (Some content))|]; intros H; inversion H. eauto.
  - discriminate.
Qed.

Lemma generateCompletionWithCache_hit (prompt : jsstring)
    (cacheKey rateLimitKey : option jsstring) (w : World) :
  cacheHit cacheKey w = true ->
  exists key cached,
    truthy cacheKey = Some key /\ cache w !! key = Some cached
    /\ generateCompletionWithCache prompt cacheKey rateLimitKey w =
       (Ok (data cached), tick w).
Proof.
  unfold cacheHit, generateCompletionWithCache. intros Hhit.
  destruct (truthy cacheKey) as [key|]; [|discriminate].
  destruct (cache w !! key) as [cached|] eqn:E; [|discriminate].
  exists key, cached. repeat split; try assumption.
  unfold bind. rewrite isCacheValid_run, E, Hhit.
  unfold gets, ret, tick. simpl. rewrite E. reflexivity.
Qed.

Lemma generateCompletionWithCache_miss (prompt : jsstring)
    (cacheKey rateLimitKey : option jsstring) (w : World) :
  cacheHit cacheKey w = false ->
  generateCompletionWithCache prompt cacheKey rateLimitKey w =
  admitAndComplete prompt cacheKey rateLimitKey (afterCacheCheck cacheKey w).
Proof.
  unfold cacheHit, afterCacheCheck, generateCompletionWithCache. intros Hmiss.
  destruct (truthy cacheKey) as [key|]; [|reflexivity].
  unfold bind. rewrite isCacheValid_run.
  destruct (cache w !! key) as [cached|]; [rewrite Hmiss|]; reflexivity.
Qed.

Lemma afterCacheCheck_frame (cacheKey : option jsstring) (w : World) :
  exists n, (ticks w <= n)%nat /\ afterCacheCheck cacheKey w = set_ticks n w.
Proof.
  unfold afterCacheCheck, tick. destruct w. world_simpl.
  destruct (truthy cacheKey) as [key|]; [destruct (_ !! key)|]; eauto.
Qed.

Lemma afterRateCheck_frame (rateLimitKey : option jsstring) (w : World) :
  exists n, afterRateCheck rateLimitKey w = set_ticks n w.
Proof.
  unfold afterRateCheck, tick. destruct w.
  destruct (truthy rateLimitKey); eauto.
Qed.

Lemma truthy_Some (o : option jsstring) (key : jsstring) :
  truthy o = Some key -> o = Some key /\ key <> [].
Proof.
  destruct o as [[|c s]|]; simpl; intros H; inversion H; subst.
  split; [reflexivity|discriminate].
Qed.

Lemma truthy_nonempty (key : jsstring) :
  key <> [] -> truthy (Some key) = Some key.
Proof. destruct key; [contradiction|reflexivity]. Qed.

Lemma admitAndComplete_run (prompt : jsstring)
    (cacheKey rateLimitKey : option jsstring) (w : World) :
  admitAndComplete prompt cacheKey rateLimitKey w =
  if limitedAt rateLimitKey w
  then (Throw rateLimitError, afterRateCheck rateLimitKey w)
  else completeAndStore prompt cacheKey rateLimitKey
         (afterRateCheck rateLimitKey w).
Proof.
  unfold admitAndComplete, limitedAt, afterRateCheck, bind.
  destruct (truthy rateLimitKey) as [key|]; [|reflexivity].
  rewrite isRateLimited_run.
  destruct (10 <=? _); reflexivity.
Qed.

Lemma completeAndStore_run (prompt : jsstring)
    (cacheKey rateLimitKey : option jsstring) (w : World) :
  completeAndStore prompt cacheKey rateLimitKey w =
  match generateCompletion prompt w with
  | (Ok result, w1) =>
      (Ok result, recordWorld rateLimitKey (putWorld cacheKey result w1))
  | (Throw e, w1) => (Throw e, w1)
  end.
Proof.
  unfold completeAndStore, recordWorld, putWorld, bind, ret.
  destruct (generateCompletion prompt w) as [[result|e] w1]; [|reflexivity].
  destruct (truthy cacheKey) as [ck|];
    [rewrite cachePut_run; world_simpl|];
    (destruct (truthy rateLimitKey) as [rk|];
     [rewrite updateRateLimit_run|]; reflexivity).
Qed.

(** How a call of the orchestrator runs, in full. *)
Lemma generateCompletionWithCache_run (prompt : jsstring)
    (cacheKey rateLimitKey : option jsstring) (w : World) :
  generateCompletionWithCache prompt cacheKey rateLimitKey w =
  if cacheHit cacheKey w then
    match truthy cacheKey with
    | Some key =>
        match cache w !! key with
        | Some cached => (Ok (data cached), tick w)
        | None => (Throw (typeErrorReading (js "data")), w)
        end
    | None => (Throw (typeErrorReading (js "data")), w)
    end
  else
    let w0 := afterCacheCheck cacheKey w in
    if limitedAt rateLimitKey w0
    then (Throw rateLimitError, afterRateCheck rateLimitKey w0)
    else
      match generateCompletion prompt (afterRateCheck rateLimitKey w0) with
      | (Ok result, w1) =>
          (Ok result, recordWorld rateLimitKey (putWorld cacheKey result w1))
      | (Throw e, w1) => (Throw e, w1)
      end.
Proof.
  destruct (cacheHit cacheKey w) eqn:Hhit.
  - destruct (generateCompletionWithCache_hit prompt _ rateLimitKey _ Hhit)
      as (key & cached & -> & -> & ->). reflexivity.
  - rewrite (generateCompletionWithCache_miss _ _ _ _ Hhit),
      admitAndComplete_run, completeAndStore_run. reflexivity.
Qed.

(** The cache after a call: as before, or with one entry written under the
    truthy key of the call. *)
Lemma generateCompletionWithCache_cache (prompt : jsstring)
    (cacheKey rateLimitKey : option jsstring) (w : World) :
  let w' := snd (generateCompletionWithCache prompt cacheKey rateLimitKey w) in
  cache w' = cache w
  \/ exists key entry,
       truthy cacheKey = Some key /\ cache w' = <[key := entry]> (cache w).
Proof.
  cbv zeta. rewrite generateCompletionWithCache_run.
  destruct (cacheHit cacheKey w).
  { destruct (truthy cacheKey) as [key|]; [destruct (cache w !! key)|];
      left; reflexivity. }
  assert (Hc : cache (afterCacheCheck cacheKey w) = cache w).
  { unfold afterCacheCheck. destruct (truthy cacheKey) as [key|];
      [destruct (cache w !! key)|]; reflexivity. }
  set (w0 := afterCacheCheck cacheKey w) in *.
  assert (Hr : cache (afterRateCheck rateLimitKey w0) = cache w).
  { rewrite <- Hc. unfold afterRateCheck.
    destruct (truthy rateLimitKey); reflexivity. }
  cbv zeta. destruct (limitedAt rateLimitKey w0); [left; exact Hr|].
  destruct (generateCompletion_frame prompt (afterRateCheck rateLimitKey w0))
    as (l & Hl & _).
  destruct (generateCompletion prompt _) as [[result|e] w1];
    world_simpl; subst w1; world_simpl; [|left; exact Hr].
  unfold recordWorld, putWorld.
  destruct (truthy cacheKey) as [ck|], (truthy rateLimitKey) as [rk|];
    rewrite ?cachePut_run, ?updateRateLimit_run; world_simpl;
    try (left; exact Hr);
    right; eexists ck, _; (split; [reflexivity|]); rewrite Hr; reflexivity.
Qed.

(** No entry is ever stored under the empty key. *)
Lemma reachable_cache_empty_key (w : World) :
  reachable w -> cache w !! ([] : jsstring) = None.
Proof.
  induction 1 as [p clk b|prompt ck rk w Hw IH]; [reflexivity|].
  destruct (generateCompletionWithCache_cache prompt ck rk w)
    as [->|(key & entry & Hk & ->)]; [exact IH|].
  apply truthy_Some in Hk as [_ Hne].
  rewrite lookup_insert_ne; [exact IH|exact Hne].
Qed.

(** The workflow keeps the service in a reachable state. *)
Lemma generateCreatorBrief_reachable (input : CreatorBriefInput) (w : World) :
  reachable w -> reachable (snd (generateCreatorBrief input w)).
Proof.
  intros Hw. rewrite generateCreatorBrief_run.
  destruct (validateInputs _ _) as [[]|e]; [|exact Hw].
  pose proof (reachable_call (buildPrompt (defaulted input))
                (Some (createCacheKey (defaulted input))) (userId input) w Hw)
    as H.
  fold (completionFor input) in H.
  destruct (completionFor input w) as [[response|e] w']; exact H.
Qed.

(** A call that returns a text under a non-empty key leaves that text in
    the cache under that key. *)
Lemma completion_is_cached (prompt key : jsstring)
    (rateLimitKey : option jsstring) (result : jsstring) (w w1 : World) :
  key <> [] ->
  generateCompletionWithCache prompt (Some key) rateLimitKey w = (Ok result, w1) ->
  exists cached, cache w1 !! key = Some cached /\ data cached = result.
Proof.
  intros Hne. rewrite generateCompletionWithCache_run.
  rewrite (truthy_nonempty _ Hne).
  destruct (cacheHit (Some key) w).
  { destruct (cache w !! key) as [cached|] eqn:E; intros H; inversion H; subst.
    exists cached. split; [exact E|reflexivity]. }
  cbv zeta. destruct (limitedAt _ _); [discriminate|].
  destruct (generateCompletion prompt _) as [[r|e] w'] eqn:G; [|discriminate].
  intros H; inversion H; subst.
  unfold recordWorld, putWorld. rewrite (truthy_nonempty _ Hne), cachePut_run.
  destruct (truthy rateLimitKey) as [rk|];
    rewrite ?updateRateLimit_run; unfold tick; world_simpl;
    rewrite lookup_insert_eq; eauto.
Qed.

(** ** The workflow on a cached fingerprint *)

Lemma createCacheKey_nonempty (f : BriefFields) : createCacheKey f <> [].
Proof.
  unfold createCacheKey. cbv zeta.
  change (js "brief_") with (98%N :: js "rief_"). discriminate.
Qed.

Lemma tick_frame (w : World) :
  calls (tick w) = calls w /\ rateLimiter (tick w) = rateLimiter w
  /\ cache (tick w) = cache w.
Proof. repeat split. Qed.

Lemma fresh_entry_hits (prompt key : jsstring) (rateLimitKey : option jsstring)
    (cached : CacheEntry) (w : World) :
  key <> [] ->
  cache w !! key = Some cached ->
  nextNow w - timestamp cached < 3600000 ->
  generateCompletionWithCache prompt (Some key) rateLimitKey w =
  (Ok (data cached), tick w).
Proof.
  intros Hne Hc Hage.
  assert (Hhit : cacheHit (Some key) w = true).
  { unfold cacheHit. rewrite (truthy_nonempty _ Hne), Hc.
    apply Z.ltb_lt, Hage. }
  destruct (generateCompletionWithCache_hit prompt _ rateLimitKey _ Hhit)
    as (key' & cached' & Hk & Hc' & ->).
  rewrite (truthy_nonempty _ Hne) in Hk. inversion Hk; subst key'.
  rewrite Hc in Hc'. inversion Hc'; subst. reflexivity.
Qed.

(** With a fresh entry under its fingerprint, the workflow answers from the
    cache. *)
Lemma workflow_replay (input : CreatorBriefInput) (cached : CacheEntry)
    (w : World) :
  validateInputs (productDescription input) (targetAudience input) = Ok tt ->
  cache w !! createCacheKey (defaulted input) = Some cached ->
  nextNow w - timestamp cached < 3600000 ->
  completionFor input w = (Ok (data cached), tick w)
  /\ generateCreatorBrief input w = (briefOf (data cached), tick w).
Proof.
  intros Hv Hc Hage.
  assert (H : completionFor input w = (Ok (data cached), tick w)).
  { apply fresh_entry_hits; auto using createCacheKey_nonempty. }
  split; [exact H|]. rewrite generateCreatorBrief_run, Hv, H. reflexivity.
Qed.

(** What a run of the workflow that got a raw text tells. *)
Lemma workflow_completed (input : CreatorBriefInput) (response : jsstring)
    (w w1 : World) :
  validateInputs (productDescription input) (targetAudience input) = Ok tt ->
  completionFor input w = (Ok response, w1) ->
  generateCreatorBrief input w = (briefOf response, w1)
  /\ exists cached,
       cache w1 !! createCacheKey (defaulted input) = Some cached
       /\ data cached = response.
Proof.
  intros Hv Hc. split.
  - rewrite generateCreatorBrief_run, Hv, Hc. reflexivity.
  - eapply completion_is_cached; [apply createCacheKey_nonempty|exact Hc].
Qed.


(** A successful run of the workflow went through validation and got its
    brief from a raw text. *)
Lemma workflow_success (input : CreatorBriefInput) (brief : JSValue)
    (w w1 : World) :
  generateCreatorBrief input w = (Ok brief, w1) ->
  validateInputs (productDescription input) (targetAudience input) = Ok tt
  /\ exists response,
       completionFor input w = (Ok response, w1)
       /\ briefOf response = Ok brief.
Proof.
  rewrite generateCreatorBrief_run.
  destruct (validateInputs _ _) as [[]|e]; [|discriminate].
  destruct (completionFor input w) as [[response|e] w'] eqn:E; [|discriminate].
  intros H. inversion H; subst. split; [reflexivity|]. eauto.
Qed.

(** ** C1: the cache-hit fast path *)

(** C1 (as stated, refuted). Two inputs that are equal once sanitized, from
    one caller and within the hour: the second run still calls the backend
    and adds a timestamp to the caller's window, because the fingerprint is
    taken from the raw fields. *)
Lemma sanitized_equal_inputs_miss_the_cache :
  let a := sampleInput "Eco bottle" "u1" in
  let b := sampleInput " Eco bottle" "u1" in
  let w0 := newService openai (steadyClock 1) (answering sampleBriefText) in
  let w1 := snd (generateCreatorBrief a w0) in
  let w2 := snd (generateCreatorBrief b w1) in
  sanitizedFields (defaulted a) = sanitizedFields (defaulted b)
  /\ length (calls w1) = 1%nat /\ length (calls w2) = 2%nat
  /\ length (requestsOf w1 (js "u1")) = 1%nat
  /\ length (requestsOf w2 (js "u1")) = 2%nat.
Proof. vm_compute. repeat split. Qed.

(** C1 (amended). On a service in a reachable state, a call of
    [generateCompletionWithCache] with a fingerprint whose cache entry is
    strictly less than one hour old returns the cached text at once: the
    world changes by one clock reading only, so no backend call is logged
    and the rate-limit windows are as before. Hence, when the workflow got
    a raw text for an input, a second run with the same raw, defaulted
    fields within the hour gets the same raw text from the cache, without
    a backend call and without a new timestamp in any window. *)
Theorem cache_hit_fast_path :
  (forall (w : World) (prompt key : jsstring)
          (rateLimitKey : option jsstring) (cached : CacheEntry),
     reachable w ->
     cache w !! key = Some cached ->
     nextNow w - timestamp cached < 3600000 ->
     generateCompletionWithCache prompt (Some key) rateLimitKey w =
       (Ok (data cached), tick w)
     /\ calls (tick w) = calls w
     /\ rateLimiter (tick w) = rateLimiter w)
  /\ (forall (i1 i2 : CreatorBriefInput) (response : jsstring) (w w1 : World),
        defaulted i1 = defaulted i2 ->
        completionFor i1 w = (Ok response, w1) ->
        fresh (createCacheKey (defaulted i1)) w1 ->
        completionFor i2 w1 = (Ok response, tick w1)
        /\ calls (tick w1) = calls w1
        /\ rateLimiter (tick w1) = rateLimiter w1).
Proof.
  split.
  - intros w prompt key rk cached Hw Hc Hage.
    split; [|split; reflexivity].
    apply fresh_entry_hits; try assumption.
    intros ->. rewrite (reachable_cache_empty_key _ Hw) in Hc. discriminate.
  - intros i1 i2 response w w1 Hd Hrun Hfresh.
    split; [|split; reflexivity].
    destruct (completion_is_cached _ _ _ _ _ _
                (createCacheKey_nonempty (defaulted i1)) Hrun)
      as (cached & Hc & <-).
    unfold completionFor. rewrite <- Hd.
    apply fresh_entry_hits;
      [apply createCacheKey_nonempty|exact Hc|exact (Hfresh _ Hc)].
Qed.

(** C1, an instance: a service that has just answered one request, and
    the same request again. *)
Lemma cache_hit_fast_path_witness :
  let input := sampleInput "Eco bottle" "u1" in
  let w0 := newService openai (steadyClock 1) (answering sampleBriefText) in
  let w1 := snd (completionFor input w0) in
  generateCompletionWithCache (js "any prompt")
    (Some (createCacheKey (defaulted input))) (Some (js "u2")) w1
  = (Ok sampleBriefText, tick w1)
  /\ completionFor input w1 = (Ok sampleBriefText, tick w1).
Proof.
  cbv zeta. split.
  - refine (proj1 (proj1 cache_hit_fast_path
      (snd (completionFor (sampleInput "Eco bottle" "u1")
              (newService openai (steadyClock 1) (answering sampleBriefText))))
      (js "any prompt") _ (Some (js "u2"))
      {| data := sampleBriefText; timestamp := 1 |} _ _ _)).
    + apply reachable_call, reachable_new.
    + vm_compute. reflexivity.
    + vm_compute. reflexivity.
  - refine (proj1 (proj2 cache_hit_fast_path
      (sampleInput "Eco bottle" "u1") (sampleInput "Eco bottle" "u1")
      sampleBriefText
      (newService openai (steadyClock 1) (answering sampleBriefText)) _ _ _ _)).
    + reflexivity.
    + vm_compute. reflexivity.
    + intros cached Hc.
      assert (E : cached = {| data := sampleBriefText; timestamp := 1 |}).
      { vm_compute in Hc. inversion Hc. vm_compute. reflexivity. }
      rewrite E. vm_compute. reflexivity.
Defined.

(** ** C5: the fingerprint does not depend on the caller *)



(** ** C10: raw completions are cached before they are parsed *)

(** A call that misses the cache and returns a text made one backend
    call. *)
Lemma miss_calls_backend (prompt : jsstring)
    (cacheKey rateLimitKey : option jsstring) (result : jsstring)
    (w w1 : World) :
  cacheHit cacheKey w = false ->
  generateCompletionWithCache prompt cacheKey rateLimitKey w = (Ok result, w1) ->
  exists sent, calls w1 = calls w ++ [sent].
Proof.
  intros Hmiss. rewrite generateCompletionWithCache_run, Hmiss. cbv zeta.
  destruct (limitedAt _ _); [discriminate|].
  destruct (generateCompletion prompt _) as [[r|e] w'] eqn:G; [|discriminate].
  apply generateCompletion_ok_calls in G as (sent & ->).
  intros H. inversion H; subst. exists sent.
  assert (E : forall l w0,
             calls (recordWorld rateLimitKey (putWorld cacheKey result
                                                (set_calls l w0))) = l).
  { intros l w0. unfold recordWorld, putWorld.
    destruct (truthy cacheKey), (truthy rateLimitKey);
      rewrite ?cachePut_run, ?updateRateLimit_run; reflexivity. }
  rewrite E.
  destruct (afterCacheCheck_frame cacheKey w) as (n1 & _ & ->).
  destruct (afterRateCheck_frame rateLimitKey (set_ticks n1 w)) as (n2 & ->).
  reflexivity.
Qed.

(** C10. When a run of the workflow misses the cache and the backend
    answers with a raw text that [parseAndValidateResponse] rejects, that
    run has made one backend call, it fails with the surfaced error, and
    the raw text is in the cache under the fingerprint all the same. Hence
    a run with the same input in any world that still holds that entry,
    less than one hour old, fails with the same error, read from the
    cached text: the world changes by one clock reading, so no backend
    call is logged. *)
Theorem malformed_response_is_replayed (input : CreatorBriefInput)
    (response : jsstring) (e : Thrown) (w w1 w2 : World) :
  validateInputs (productDescription input) (targetAudience input) = Ok tt ->
  cacheHit (Some (createCacheKey (defaulted input))) w = false ->
  completionFor input w = (Ok response, w1) ->
  parseAndValidateResponse response = Throw e ->
  cache w2 !! createCacheKey (defaulted input)
    = cache w1 !! createCacheKey (defaulted input) ->
  fresh (createCacheKey (defaulted input)) w2 ->
  (exists sent, calls w1 = calls w ++ [sent])
  /\ generateCreatorBrief input w = (Throw (surfaced e), w1)
  /\ (exists cached,
        cache w1 !! createCacheKey (defaulted input) = Some cached
        /\ data cached = response)
  /\ generateCreatorBrief input w2 = (Throw (surfaced e), tick w2)
  /\ calls (tick w2) = calls w2.
Proof.
  intros Hv Hmiss Hrun Hparse Hkeep Hfresh.
  split; [exact (miss_calls_backend _ _ _ _ _ _ Hmiss Hrun)|].
  destruct (workflow_completed _ _ _ _ Hv Hrun) as (Hg & cached & Hin & Hdata).
  assert (Hb : briefOf response = Throw (surfaced e))
    by (unfold briefOf; rewrite Hparse; reflexivity).
  rewrite Hb in Hg. split; [exact Hg|].
  split; [exists cached; split; assumption|].
  rewrite <- Hkeep in Hin.
  destruct (workflow_replay input cached w2 Hv Hin (Hfresh _ Hin)) as (_ & Hg2).
  rewrite Hdata, Hb in Hg2. split; [exact Hg2|reflexivity].
Qed.

(** C10, an instance: the backend answers with a text that is not JSON. *)
Lemma malformed_response_is_replayed_witness :
  let input := sampleInput "Eco bottle" "u1" in
  let w0 := newService openai (steadyClock 1) (answering (js "Sorry, no.")) in
  let w1 := snd (completionFor input w0) in
  generateCreatorBrief input w0
    = (Throw (JsError (js "Failed to process AI response. Please try again.")), w1)
  /\ generateCreatorBrief input w1
    = (Throw (JsError (js "Failed to process AI response. Please try again.")),
       tick w1)
  /\ calls (tick w1) = calls w1.
Proof.
  cbv zeta.
  set (input := sampleInput "Eco bottle" "u1").
  set (w0 := newService openai (steadyClock 1) (answering (js "Sorry, no."))).
  assert (Hfresh : fresh (createCacheKey (defaulted input))
                     (snd (completionFor input w0))).
  { intros cached Hc.
    assert (E : cached = {| data := js "Sorry, no."; timestamp := 1 |}).
    { vm_compute in Hc. inversion Hc. vm_compute. reflexivity. }
    rewrite E. vm_compute. reflexivity. }
  assert (Hv : validateInputs (productDescription input) (targetAudience input)
               = Ok tt) by (vm_compute; reflexivity).
  assert (Hmiss : cacheHit (Some (createCacheKey (defaulted input))) w0 = false)
    by (vm_compute; reflexivity).
  assert (Hrun : completionFor input w0
                 = (Ok (js "Sorry, no."), snd (completionFor input w0)))
    by (vm_compute; reflexivity).
  assert (Hparse : parseAndValidateResponse (js "Sorry, no.")
                   = Throw (JsError (js "Invalid JSON response from AI service")))
    by (vm_compute; reflexivity).
  pose proof (malformed_response_is_replayed input (js "Sorry, no.")
                (JsError (js "Invalid JSON response from AI service"))
                w0 (snd (completionFor input w0)) (snd (completionFor input w0))
                Hv Hmiss Hrun Hparse eq_refl Hfresh) as (_ & H1 & _ & H2 & H3).
  change (surfaced (JsError (js "Invalid JSON response from AI service")))
    with (JsError (js "Failed to process AI response. Please try again."))
    in H1, H2.
  split; [exact H1|]. split; [exact H2|exact H3].
Defined.

(** ** C2 and C7: the rate limiter *)

Lemma recent_in (now t : Z) (requests : list Z) :
  In t (recent now requests) <-> In t requests /\ now - 3600000 < t.
Proof.
  unfold recent. rewrite filter_In, Z.ltb_lt. reflexivity.
Qed.


Lemma generateCompletion_world (prompt : jsstring) (w : World) :
  exists l, snd (generateCompletion prompt w) = set_calls l w.
Proof.
  destruct (generateCompletion_frame prompt w) as (l & H & _). eauto.
Qed.

Lemma requestsOf_record (uid : jsstring) (w : World) :
  requestsOf (snd (updateRateLimit uid w)) uid = requestsOf w uid ++ [nextNow w].
Proof.
  rewrite updateRateLimit_run. unfold requestsOf at 1. world_simpl.
  rewrite lookup_insert_eq. reflexivity.
Qed.

(** The adapter's errors all carry its prefix. *)
Lemma generateCompletion_error (prompt : jsstring) (w : World) (e : Thrown) :
  fst (generateCompletion prompt w) = Throw e ->
  exists m, e = JsError (js "AI service failed: " ++ m).
Proof.
  unfold generateCompletion, tryCatch, throw.
  destruct (bind (gets config) _ w) as [[r|e0] w']; cbn [fst];
    intros H; inversion H. eauto.
Qed.

Lemma generateCompletion_not_rate_limit (prompt : jsstring) (w : World) :
  fst (generateCompletion prompt w) <> Throw rateLimitError.
Proof.
  intros H. apply generateCompletion_error in H as (m & H).
  unfold rateLimitError in H.
  change (js "Rate limit exceeded. Please try again later.")
    with (82%N :: js "ate limit exceeded. Please try again later.") in H.
  change (js "AI service failed: ") with (65%N :: js "I service failed: ") in H.
  discriminate.
Qed.









(** C7 (as stated, refuted). A caller is served once, at time 4000000; the
    limiter checks the same caller at time 8000000. The recorded timestamp
    is more than one hour old then, the check does not count it, and it is
    still in the stored sequence after the check. *)
Lemma stale_timestamp_survives_check :
  let w0 := newService openai (steadyClock 4000000) (answering sampleBriefText) in
  let w1 := snd (generateCompletionWithCache (js "p") None (Some (js "u1")) w0) in
  let now := nextNow w1 in
  let w2 := snd (isRateLimited (js "u1") w1) in
  now = 8000000
  /\ requestsOf w2 (js "u1") = [4000000]
  /\ ~ (now - 3600000 < 4000000)
  /\ recent now (requestsOf w1 (js "u1")) = [].
Proof.
  vm_compute. repeat split; intros H; discriminate H.
Qed.

(** C7 (amended). The stored sequences are append-only: nothing is ever
    pruned. A check changes the world by one clock reading only and leaves
    both maps as they are; a record appends the current time to the
    caller's sequence and leaves the other callers' sequences alone; a call
    of the orchestrator keeps every stored sequence as a prefix of the new
    one. Only the count used for admission is restricted to the trailing
    window: the timestamps the check counts are the stored ones strictly
    newer than now minus one hour. *)
Theorem rate_window_is_append_only :
  (forall (key : jsstring) (w : World),
     isRateLimited key w
     = (Ok (10 <=? Z.of_nat (length (recent (nextNow w) (requestsOf w key)))),
        tick w)
     /\ rateLimiter (tick w) = rateLimiter w)
  /\ (forall (key other : jsstring) (w : World),
        requestsOf (snd (updateRateLimit key w)) other =
        if bool_decide (other = key)
        then requestsOf w key ++ [nextNow w]
        else requestsOf w other)
  /\ (forall (prompt : jsstring) (cacheKey rateLimitKey : option jsstring)
             (key : jsstring) (w : World),
        exists added,
          requestsOf
            (snd (generateCompletionWithCache prompt cacheKey rateLimitKey w))
            key
          = requestsOf w key ++ added)
  /\ (forall (now t : Z) (requests : list Z),
        In t (recent now requests) <-> In t requests /\ now - 3600000 < t).
Proof.
  split; [|split; [|split]].
  - intros key w. rewrite isRateLimited_run. split; reflexivity.
  - intros key other w. case_bool_decide as E.
    + subst other. apply requestsOf_record.
    + rewrite updateRateLimit_run. unfold requestsOf. world_simpl.
      rewrite lookup_insert_ne by congruence. reflexivity.
  - intros prompt ck rk key w.
    rewrite generateCompletionWithCache_run.
    destruct (cacheHit ck w).
    { exists []. rewrite app_nil_r.
      destruct (truthy ck) as [k|]; [destruct (cache w !! k)|]; reflexivity. }
    cbv zeta.
    destruct (afterCacheCheck_frame ck w) as (n & _ & ->).
    assert (Hr : forall w', rateLimiter (afterRateCheck rk w') = rateLimiter w').
    { intros w'. unfold afterRateCheck. destruct (truthy rk); reflexivity. }
    destruct (limitedAt rk _).
    { exists []. rewrite app_nil_r. unfold requestsOf. cbn [snd].
      rewrite Hr. reflexivity. }
    destruct (generateCompletion_world prompt (afterRateCheck rk (set_ticks n w)))
      as (l & Hl).
    destruct (generateCompletion prompt _) as [[r|e] w1]; cbn [snd] in *;
      subst w1.
    2:{ exists []. rewrite app_nil_r. unfold requestsOf. world_simpl.
        rewrite Hr. reflexivity. }
    assert (Hp : rateLimiter
                   (putWorld ck r (set_calls l (afterRateCheck rk (set_ticks n w))))
                 = rateLimiter w).
    { unfold putWorld. destruct (truthy ck); rewrite ?cachePut_run;
        unfold tick; world_simpl; rewrite Hr; reflexivity. }
    unfold recordWorld. destruct (truthy rk) as [uid|].
    + destruct (decide (key = uid)) as [->|Hne].
      * rewrite requestsOf_record. unfold requestsOf at 1. rewrite Hp. eauto.
      * exists []. rewrite app_nil_r, updateRateLimit_run.
        unfold requestsOf. world_simpl.
        rewrite lookup_insert_ne by congruence. unfold tick. world_simpl.
        rewrite Hp. reflexivity.
    + exists []. rewrite app_nil_r. unfold requestsOf. rewrite Hp. reflexivity.
  - intros now t requests. apply recent_in.
Qed.

(** ** C9: backend failures *)

Lemma generateCompletion_failure (prompt m : jsstring) (w : World) :
  backendFailure w prompt = Some m ->
  exists l,
    generateCompletion prompt w =
      (Throw (JsError (js "AI service failed: " ++ m)), set_calls l w)
    /\ (l = calls w \/ exists sent, l = calls w ++ [sent]).
Proof.
  unfold backendFailure, generateCompletion, tryCatch, bind, gets, throw.
  destruct w as [cfg c r clk t b l]. world_simpl. cbv zeta.
  destruct cfg.
  - unfold generateOpenAICompletion, bind, callBackend, throw, ret.
    world_simpl.
    destruct (openai_create b (length l) prompt) as [content|e];
      [destruct (truthy content)|]; intros H; inversion H;
      exists (l ++ [prompt]); split; eauto.
  - unfold generateAnthropicCompletion, bind, callBackend, throw, ret.
    world_simpl.
    destruct (anthropic_create b (length l) prompt) as [[|[text|ty] rest]|e];
      intros H; inversion H; exists (l ++ [prompt]); split; eauto.
  - unfold generateGeminiCompletion, bind, callBackend, throw, ret.
    world_simpl.
    destruct (gemini_generate b (length l) _) as [content|e];
      [destruct (truthy (Some content))|]; intros H; inversion H;
      eexists (l ++ [_]); split; eauto.
  - intros H; inversion H. exists l. split; eauto.
Qed.

(** C9 (as stated, refuted). The backend rejects the call with a message
    that quotes a credential: the workflow's error carries that message
    to the caller. *)
Lemma backend_message_reaches_the_caller :
  let w0 := newService openai (steadyClock 1)
              (rejecting (js "Incorrect API key provided: sk-live-123")) in
  let run := generateCreatorBrief (sampleInput "Eco bottle" "u1") w0 in
  fst run
    = Throw (JsError (js "Failed to generate creator brief: AI service failed: Incorrect API key provided: sk-live-123"))
  /\ includes (messageOf (surfaced (JsError (js "AI service failed: Incorrect API key provided: sk-live-123"))))
       (js "sk-live-123") = true
  /\ length (calls (snd run)) = 1%nat.
Proof. vm_compute. repeat split. Qed.

(** C9 (amended). When a run of the workflow reaches the adapter (the
    input is valid, the cache misses, the caller is not limited) and the
    backend call fails with the message [m], the adapter throws
    "AI service failed: m" after at most one backend call (no retry), the
    cache and the rate limiter are left as they were, and the workflow
    throws what its [catch] makes of that error: when the adapter's
    message contains neither "Rate limit exceeded" nor "JSON", this is
    "Failed to generate creator brief: AI service failed: m", which carries
    the backend-reported message. *)
Theorem provider_errors_carry_backend_message (input : CreatorBriefInput)
    (m : jsstring) (w : World) :
  let key := createCacheKey (defaulted input) in
  let prompt := buildPrompt (defaulted input) in
  let failure := JsError (js "AI service failed: " ++ m) in
  validateInputs (productDescription input) (targetAudience input) = Ok tt ->
  cacheHit (Some key) w = false ->
  limitedAt (userId input) (afterCacheCheck (Some key) w) = false ->
  backendFailure w prompt = Some m ->
  exists w1,
    generateCompletionWithCache prompt (Some key) (userId input) w
      = (Throw failure, w1)
    /\ generateCreatorBrief input w = (Throw (surfaced failure), w1)
    /\ (calls w1 = calls w \/ exists sent, calls w1 = calls w ++ [sent])
    /\ cache w1 = cache w /\ rateLimiter w1 = rateLimiter w
    /\ (includes (messageOf failure) (js "Rate limit exceeded") = false ->
        includes (messageOf failure) (js "JSON") = false ->
        surfaced failure =
        JsError (js "Failed to generate creator brief: AI service failed: " ++ m)).
Proof.
  cbv zeta. intros Hv Hmiss Hlim Hfail.
  destruct (afterCacheCheck_frame (Some (createCacheKey (defaulted input))) w)
    as (n1 & _ & E1).
  rewrite E1 in Hlim.
  destruct (afterRateCheck_frame (userId input) (set_ticks n1 w)) as (n2 & E2).
  assert (Hfail' : backendFailure (set_ticks n2 (set_ticks n1 w))
                     (buildPrompt (defaulted input)) = Some m) by exact Hfail.
  destruct (generateCompletion_failure _ _ _ Hfail') as (l & Hgen & Hl).
  exists (set_calls l (set_ticks n2 (set_ticks n1 w))).
  assert (Hrun : generateCompletionWithCache (buildPrompt (defaulted input))
                   (Some (createCacheKey (defaulted input))) (userId input) w
                 = (Throw (JsError (js "AI service failed: " ++ m)),
                    set_calls l (set_ticks n2 (set_ticks n1 w)))).
  { rewrite generateCompletionWithCache_run, Hmiss. cbv zeta.
    rewrite E1, Hlim, E2, Hgen. reflexivity. }
  split; [exact Hrun|]. split.
  { rewrite generateCreatorBrief_run, Hv. unfold completionFor.
    rewrite Hrun. reflexivity. }
  split; [exact Hl|]. split; [reflexivity|]. split; [reflexivity|].
  intros H1 H2. unfold surfaced. rewrite H1, H2. cbn [messageOf].
  change (js "Failed to generate creator brief: AI service failed: ")
    with (js "Failed to generate creator brief: " ++ js "AI service failed: ").
  rewrite <- app_assoc. reflexivity.
Qed.

(** ** C8: parsing and structural validation *)

Lemma notNonEmptyArray_negb (v : option JSValue) :
  notNonEmptyArray v = negb (isNonEmptyArray v).
Proof. destruct v as [[| | | |[|]|]|]; reflexivity. Qed.

Lemma notAnObject_negb (v : option JSValue) :
  notAnObject v = negb (isObjectOrArray v).
Proof.
  unfold notAnObject. destruct v as [[|[]|n|s| |]|]; try reflexivity;
    apply orb_true_r.
Qed.

Lemma isNonEmptyArray_truthy (v : option JSValue) :
  isNonEmptyArray v = true -> toBoolean v = true.
Proof. destruct v as [[| | | |[|]|]|]; (discriminate || reflexivity). Qed.

Lemma In_requiredFields :
  In (js "campaignTitle") requiredFields /\ In (js "objective") requiredFields
  /\ In (js "platforms") requiredFields
  /\ In (js "contentFormats") requiredFields
  /\ In (js "messagingPillars") requiredFields.
Proof. unfold requiredFields. cbn [In]. tauto. Qed.

Lemma In_arrayFields :
  In (js "platforms") arrayFields /\ In (js "contentFormats") arrayFields
  /\ In (js "messagingPillars") arrayFields.
Proof. unfold arrayFields. cbn [In]. tauto. Qed.

Lemma In_subObjectFields :
  In (js "creativeDirection") subObjectFields
  /\ In (js "deliverables") subObjectFields /\ In (js "kpis") subObjectFields.
Proof. unfold subObjectFields. cbn [In]. tauto. Qed.

Ltac refuse r :=
  exists r; split; [|reflexivity]; cbn [rejects];
  first [ assumption
        | split; [first [apply In_requiredFields | apply In_arrayFields
                        | apply In_subObjectFields]
                 | assumption] ].

(** The checks after [JSON.parse], in one statement. *)
Lemma validateBrief_spec (brief : JSValue) :
  if acceptable brief then validateBrief brief = Ok brief
  else exists r, rejects brief r
                 /\ validateBrief brief = Throw (JsError (rejectionMessage r)).
Proof.
  destruct brief as [|b|n|s|elements|members];
    try (cbn [acceptable]; exists NotAnObject;
         split; [reflexivity|];
         unfold validateBrief; rewrite notAnObject_negb; reflexivity).
  { cbn [acceptable]. exists (MissingField (js "campaignTitle")).
    split; [split; [apply In_requiredFields|reflexivity]|reflexivity]. }
  unfold validateBrief, acceptable.
  change (notAnObject (Some (JObject members))) with false. cbv iota.
  cbn [checkRequiredFields requiredFields checkArrayFields arrayFields
       forallb subObjectFields].
  rewrite !notNonEmptyArray_negb, !notAnObject_negb.
  set (brief := JObject members).
  destruct (toBoolean (getProperty brief (js "campaignTitle"))) eqn:T1;
    cbn [negb andb]; [|refuse (MissingField (js "campaignTitle"))].
  destruct (toBoolean (getProperty brief (js "objective"))) eqn:T2;
    cbn [negb andb]; [|refuse (MissingField (js "objective"))].
  destruct (toBoolean (getProperty brief (js "platforms"))) eqn:T3;
    cbn [negb andb];
    [|destruct (isNonEmptyArray _) eqn:A3;
      [apply isNonEmptyArray_truthy in A3; congruence|];
      cbn [andb]; refuse (MissingField (js "platforms"))].
  destruct (toBoolean (getProperty brief (js "contentFormats"))) eqn:T4;
    cbn [negb andb];
    [|destruct (isNonEmptyArray (getProperty brief (js "contentFormats")))
        eqn:A4; [apply isNonEmptyArray_truthy in A4; congruence|];
      rewrite !andb_false_r; cbn [andb];
      refuse (MissingField (js "contentFormats"))].
  destruct (toBoolean (getProperty brief (js "messagingPillars"))) eqn:T5;
    cbn [negb andb];
    [|destruct (isNonEmptyArray (getProperty brief (js "messagingPillars")))
        eqn:A5; [apply isNonEmptyArray_truthy in A5; congruence|];
      rewrite !andb_false_r; cbn [andb];
      refuse (MissingField (js "messagingPillars"))].
  destruct (isNonEmptyArray (getProperty brief (js "platforms"))) eqn:A3;
    cbn [negb andb]; [|refuse (NotANonEmptyArray (js "platforms"))].
  destruct (isNonEmptyArray (getProperty brief (js "contentFormats"))) eqn:A4;
    cbn [negb andb]; [|refuse (NotANonEmptyArray (js "contentFormats"))].
  destruct (isNonEmptyArray (getProperty brief (js "messagingPillars"))) eqn:A5;
    cbn [negb andb]; [|refuse (NotANonEmptyArray (js "messagingPillars"))].
  destruct (isObjectOrArray (getProperty brief (js "creativeDirection"))) eqn:O1;
    cbn [negb andb]; [|refuse (NotASubObject (js "creativeDirection"))].
  destruct (isObjectOrArray (getProperty brief (js "deliverables"))) eqn:O2;
    cbn [negb andb]; [|refuse (NotASubObject (js "deliverables"))].
  destruct (isObjectOrArray (getProperty brief (js "kpis"))) eqn:O3;
    cbn [negb andb]; [|refuse (NotASubObject (js "kpis"))].
  reflexivity.
Qed.

(** C8 (as stated, refuted). A response with all eight fields present, the
    three lists non-empty and the three nested fields objects, but with an
    empty title, is refused as if the title were missing; and a response
    whose [creativeDirection] is an array, not an object, is returned as a
    brief. *)
Lemma falsy_title_is_reported_missing :
  (exists brief,
     JSON_parse (cleanResponse emptyTitleText) = Some brief
     /\ specAccepts brief = true)
  /\ parseAndValidateResponse emptyTitleText
     = Throw (JsError (js "Missing required field in AI response: campaignTitle"))
  /\ (exists brief,
        JSON_parse (cleanResponse arrayDirectionText) = Some brief
        /\ specAccepts brief = false
        /\ parseAndValidateResponse arrayDirectionText = Ok brief).
Proof.
  split; [|split].
  - eexists. split; vm_compute; reflexivity.
  - vm_compute. reflexivity.
  - eexists. split; [|split]; vm_compute; reflexivity.
Qed.

(** C8 (amended). After the code-fence markers are stripped, a text that
    [JSON.parse] refuses yields the error "Invalid JSON response from AI
    service". A parsed value is returned as it is exactly when it is
    [acceptable]: a JSON object whose [campaignTitle] and [objective] are
    truthy (present and not an empty string, zero, [false] or [null]),
    whose [platforms], [contentFormats] and [messagingPillars] are
    non-empty arrays, and whose [creativeDirection], [deliverables] and
    [kpis] are objects in the sense of [typeof] (JSON objects or arrays).
    Every other parsed value yields an error whose message names a field
    that fails its check (or says that the response is not an object). *)
Theorem response_validation (response : jsstring) :
  match JSON_parse (cleanResponse response) with
  | None =>
      parseAndValidateResponse response
      = Throw (JsError (js "Invalid JSON response from AI service"))
  | Some brief =>
      if acceptable brief then parseAndValidateResponse response = Ok brief
      else exists r,
             rejects brief r
             /\ parseAndValidateResponse response
                = Throw (JsError (rejectionMessage r))
  end.
Proof.
  unfold parseAndValidateResponse. cbv zeta.
  destruct (JSON_parse (cleanResponse response)) as [brief|]; [|reflexivity].
  apply validateBrief_spec.
Qed.

(** The fenced and the bare text of one brief parse to the same object. *)
Example fenced_response_parses :
  parseAndValidateResponse
    ([96; 96; 96]%N ++ js "json" ++ [10%N] ++ sampleBriefText
     ++ [10; 96; 96; 96]%N)
  = parseAndValidateResponse sampleBriefText
  /\ isOk (parseAndValidateResponse sampleBriefText) = true.
Proof. vm_compute. split; reflexivity. Qed.

(** ** C3: what the fingerprint is a function of *)




(** ** C4: the sanitizer *)

(** C4 (the defect). The quotes are escaped before the backslashes, so the
    backslash that escapes a quote is doubled by the next pass: a quote
    comes out as two backslashes and a quote, not as an escaped quote.
    The first equation holds for every text; the rest evaluate the code
    and the transform of the specification on one quote. *)
Theorem sanitizeInput_escapes_quotes_twice :
  (forall s : jsstring,
     escapeBackslashes (escapeQuotes s)
     = flat_map (fun c => if c =? 34 then [92; 92; 34]
                          else if c =? 92 then [92; 92] else [c])%N s)
  /\ sanitizeInput [34%N] = [92; 92; 34]%N
  /\ sanitizeInput_spec [34%N] = [92; 34]%N
  /\ sanitizeInput (jsq "say 'hi'") = js "say \\" ++ [34%N] ++ js "hi\\" ++ [34%N].
Proof.
  split; [|vm_compute; repeat split].
  induction s as [|c s IH]; [reflexivity|].
  change (escapeQuotes (c :: s))
    with ((if c =? 34 then [92; 34] else [c])%N ++ escapeQuotes s).
  unfold escapeBackslashes in *. rewrite flat_map_app, IH.
  cbn [flat_map]. f_equal.
  destruct (N.eqb_spec c 34) as [->|H34]; [reflexivity|].
  cbn [flat_map app]. destruct (N.eqb_spec c 92); reflexivity.
Qed.

(** Every string field that [buildPrompt] substitutes goes through
    [sanitizeInput]; the platform names are joined as they are. *)
Example buildPrompt_sanitizes :
  let f := {| f_productDescription := js "<b>Eco</b>";
              f_targetAudience := js "  teens  ";
              f_campaignGoals := js "g"; f_budget := js "b";
              f_platforms := [js "<Insta>"]; f_timeframe := js "t" |} in
  includes (buildPrompt f) (js "<b>") = false
  /\ includes (buildPrompt f) (js "<Insta>") = true.
Proof. vm_compute. split; reflexivity. Qed.

(** ** Closed instances of C6 and C9 *)

(** C6, an instance: a product description made of white space. *)
Lemma validation_fails_fast_witness :
  exists msg,
    In msg validationMessages /\
    forall w : World,
      generateCreatorBrief (sampleInput "   " "u1") w =
      (Throw (JsError (js "Failed to generate creator brief: " ++ msg)), w).
Proof.
  apply (validation_fails_fast (sampleInput "   " "u1")).
  left. vm_compute. reflexivity.
Defined.

(** C9, an instance: the backend rejects the call as overloaded. *)
Lemma provider_errors_carry_backend_message_witness :
  exists w1,
    generateCreatorBrief (sampleInput "Eco bottle" "u1")
      (newService openai (steadyClock 1) (rejecting (js "Overloaded")))
    = (Throw (JsError (js "Failed to generate creator brief: AI service failed: Overloaded")),
       w1)
    /\ cache w1 = ∅ /\ rateLimiter w1 = ∅.
Proof.
  destruct (provider_errors_carry_backend_message
              (sampleInput "Eco bottle" "u1") (js "Overloaded")
              (newService openai (steadyClock 1) (rejecting (js "Overloaded"))))
    as (w1 & _ & Hg & _ & Hc & Hr & Hs);
    try (vm_compute; reflexivity).
  exists w1. rewrite Hg, Hs; try (vm_compute; reflexivity).
  split; [reflexivity|]. split; [exact Hc|exact Hr].
Defined.

(** * Further properties of the code *)

(** ** Strings: [trim], [includes] *)

Lemma dropWhile_idem {A} (p : A -> bool) (l : list A) :
  dropWhile p (dropWhile p l) = dropWhile p l.
Proof.
  induction l as [|x l IH]; [reflexivity|].
  cbn [dropWhile]. destruct (p x) eqn:E; [exact IH|].
  cbn [dropWhile]. rewrite E. reflexivity.
Qed.

Lemma dropWhile_app_last {A} (p : A -> bool) (l : list A) (x : A) :
  p x = false -> dropWhile p (l ++ [x]) = dropWhile p l ++ [x].
Proof.
  intros Hx. induction l as [|y l IH]; cbn [dropWhile app].
  - rewrite Hx. reflexivity.
  - destruct (p y); [exact IH|reflexivity].
Qed.

Lemma dropWhile_none {A} (p : A -> bool) (l : list A) :
  Forall (fun x => p x = false) l -> dropWhile p l = l \/ l = [].
Proof.
  destruct 1 as [|x l Hx _]; [right; reflexivity|left].
  cbn [dropWhile]. rewrite Hx. reflexivity.
Qed.

Lemma dropWhile_Forall {A} (P : A -> Prop) (p : A -> bool) (l : list A) :
  Forall P l -> Forall P (dropWhile p l).
Proof.
  induction 1 as [|x l Hx Hl IH]; [constructor|].
  cbn [dropWhile]. destruct (p x); [exact IH|constructor; assumption].
Qed.

Lemma trim_Forall (P : N -> Prop) (s : jsstring) :
  Forall P s -> Forall P (trim s).
Proof.
  intros H. unfold trim, trimEnd, trimStart.
  apply Forall_rev, dropWhile_Forall, Forall_rev, dropWhile_Forall, H.
Qed.

(** A text that starts with a code unit that is not white space keeps it
    through [trimEnd]. *)
Lemma trimEnd_cons (x : N) (s : jsstring) :
  isWhiteSpace x = false -> trimEnd (x :: s) = x :: trimEnd s.
Proof.
  intros Hx. unfold trimEnd. cbn [rev].
  rewrite (dropWhile_app_last _ _ _ Hx), rev_app_distr. reflexivity.
Qed.

Lemma trim_idem (s : jsstring) : trim (trim s) = trim s.
Proof.
  unfold trim.
  assert (Hstart : trimStart (trimEnd (trimStart s)) = trimEnd (trimStart s)).
  { unfold trimStart at 2 3.
    induction s as [|x s IH]; [reflexivity|].
    cbn [dropWhile]. destruct (isWhiteSpace x) eqn:E; [exact IH|].
    rewrite (trimEnd_cons _ _ E). unfold trimStart. cbn [dropWhile].
    rewrite E. reflexivity. }
  rewrite Hstart. unfold trimEnd at 1 2.
  rewrite rev_involutive, dropWhile_idem. reflexivity.
Qed.

(** A text without white space at either end is its own [trim]. *)
Lemma trim_bare (x y : N) (s : jsstring) :
  isWhiteSpace x = false -> isWhiteSpace y = false ->
  trim (x :: s ++ [y]) = x :: s ++ [y].
Proof.
  intros Hx Hy. unfold trim, trimStart. cbn [dropWhile]. rewrite Hx.
  unfold trimEnd. change (x :: s ++ [y]) with ((x :: s) ++ [y]).
  rewrite rev_app_distr. cbn [rev app dropWhile]. rewrite Hy.
  cbn [rev]. rewrite rev_app_distr, rev_involutive. reflexivity.
Qed.

(** ** [sanitizeInput] *)

Lemma removeAngleBrackets_Forall (s : jsstring) :
  Forall (fun c => c <> 60 /\ c <> 62)%N (removeAngleBrackets s).
Proof.
  apply Forall_forall. intros c Hc. apply list_elem_of_In in Hc.
  unfold removeAngleBrackets in Hc. apply filter_In in Hc as [_ Hc].
  apply negb_true_iff, orb_false_iff in Hc as [H1 H2].
  apply N.eqb_neq in H1, H2. auto.
Qed.

Lemma collapseNewlinesFrom_Forall (P : N -> Prop) (inRun : bool) (s : jsstring) :
  P 32%N -> Forall P s ->
  Forall (fun c => P c /\ c <> 10%N) (collapseNewlinesFrom inRun s).
Proof.
  intros Hsp H. revert inRun.
  induction H as [|c s Hc _ IH]; intros inRun; [constructor|].
  cbn [collapseNewlinesFrom]. destruct (N.eqb_spec c 10) as [->|Hne].
  - destruct inRun; [apply IH|].
    constructor; [split; [exact Hsp|discriminate]|apply IH].
  - constructor; [split; assumption|apply IH].
Qed.

Lemma flat_map_Forall {A B} (Q : B -> Prop) (f : A -> list B) (l : list A) :
  (forall x, In x l -> Forall Q (f x)) -> Forall Q (flat_map f l).
Proof.
  induction l as [|x l IH]; intros H; [constructor|].
  cbn [flat_map]. apply Forall_app. split.
  - apply H. left. reflexivity.
  - apply IH. intros y Hy. apply H. right. exact Hy.
Qed.

(** X1. Whatever the input, the sanitized text holds no angle bracket and
    no line feed: the two passes that follow their removal only add
    backslashes and quotes. *)
Theorem sanitized_text_has_no_markup (input : jsstring) :
  Forall (fun c => c <> 60 /\ c <> 62 /\ c <> 10)%N (sanitizeInput input).
Proof.
  unfold sanitizeInput, escapeBackslashes, escapeQuotes, collapseNewlines.
  pose proof (collapseNewlinesFrom_Forall
                (fun c => c <> 60 /\ c <> 62)%N false
                (removeAngleBrackets (trim input))
                ltac:(split; discriminate)
                (removeAngleBrackets_Forall _)) as H.
  set (t := collapseNewlinesFrom false _) in *.
  assert (Hq : Forall (fun c => c <> 60 /\ c <> 62 /\ c <> 10)%N
                 (flat_map (fun c => if (c =? 34)%N then [92; 34]%N else [c]) t)).
  { apply flat_map_Forall. intros c Hc.
    rewrite Forall_forall in H. apply list_elem_of_In in Hc.
    specialize (H c Hc). destruct (c =? 34)%N.
    - repeat constructor; discriminate.
    - constructor; [tauto|constructor]. }
  apply flat_map_Forall. intros c Hc.
  rewrite Forall_forall in Hq. apply list_elem_of_In in Hc.
  specialize (Hq c Hc). destruct (c =? 92)%N.
  - repeat constructor; discriminate.
  - constructor; [exact Hq|constructor].
Qed.

Lemma flat_map_singleton {A} (f : A -> list A) (l : list A) :
  (forall x, In x l -> f x = [x]) -> flat_map f l = l.
Proof.
  induction l as [|x l IH]; intros H; [reflexivity|].
  cbn [flat_map]. rewrite (H x (or_introl eq_refl)), IH; [reflexivity|].
  intros y Hy. apply H. right. exact Hy.
Qed.

Lemma sanitize_clean (s : jsstring) :
  forallb needsNoEscape s = true ->
  escapeBackslashes (escapeQuotes (collapseNewlines (removeAngleBrackets s))) = s.
Proof.
  intros H. rewrite forallb_forall in H.
  assert (H1 : removeAngleBrackets s = s).
  { unfold removeAngleBrackets. apply forallb_filter_id, forallb_forall.
    intros c Hc. specialize (H c Hc). unfold needsNoEscape in H.
    apply negb_true_iff in H. apply negb_true_iff.
    repeat (apply orb_false_iff in H as [H ?]).
    apply orb_false_iff. split; assumption. }
  assert (H2 : forall b, collapseNewlinesFrom b s = s).
  { clear H1. induction s as [|c s IH]; intros b; [reflexivity|].
    cbn [collapseNewlinesFrom].
    pose proof (H c (or_introl eq_refl)) as Hc. unfold needsNoEscape in Hc.
    apply negb_true_iff in Hc. repeat (apply orb_false_iff in Hc as [Hc ?]).
    replace (c =? 10)%N with false by (symmetry; assumption).
    rewrite IH; [reflexivity|]. intros y Hy. apply H. right. exact Hy. }
  rewrite H1. unfold collapseNewlines. rewrite H2.
  unfold escapeBackslashes, escapeQuotes.
  rewrite (flat_map_singleton _ s).
  - apply flat_map_singleton. intros c Hc. specialize (H c Hc).
    unfold needsNoEscape in H. apply negb_true_iff in H.
    repeat (apply orb_false_iff in H as [H ?]).
    replace (c =? 92)%N with false by (symmetry; assumption). reflexivity.
  - intros c Hc. specialize (H c Hc).
    unfold needsNoEscape in H. apply negb_true_iff in H.
    repeat (apply orb_false_iff in H as [H ?]).
    replace (c =? 34)%N with false by (symmetry; assumption). reflexivity.
Qed.

(** X2. A text with no angle bracket, line feed, quote or backslash is
    only trimmed by [sanitizeInput]. *)
Theorem clean_text_is_only_trimmed (input : jsstring) :
  forallb needsNoEscape input = true ->
  sanitizeInput input = trim input.
Proof.
  intros H. unfold sanitizeInput. apply sanitize_clean.
  assert (Hall : Forall (fun c => needsNoEscape c = true) input)
    by (apply List.Forall_forall, forallb_forall, H).
  apply (trim_Forall _ input) in Hall.
  apply forallb_forall, List.Forall_forall, Hall.
Qed.

(** X2, an instance: a padded product description. *)
Lemma clean_text_is_only_trimmed_witness :
  sanitizeInput (js "  Eco-friendly water bottle ")
  = js "Eco-friendly water bottle".
Proof.
  rewrite (clean_text_is_only_trimmed (js "  Eco-friendly water bottle "));
    vm_compute; reflexivity.
Defined.

Lemma sanitizeInput_trim (s : jsstring) :
  sanitizeInput (trim s) = sanitizeInput s.
Proof. unfold sanitizeInput. rewrite trim_idem. reflexivity. Qed.

(** X3. White space around the five free-text fields never reaches the
    prompt: the prompt built from the fields and the prompt built from the
    trimmed fields are the same text. (The fingerprint, taken from the raw
    fields, does not enjoy this.) *)
Theorem padding_does_not_change_the_prompt (f : BriefFields) :
  buildPrompt (trimmedFields f) = buildPrompt f.
Proof.
  unfold buildPrompt, trimmedFields. cbn [f_productDescription f_targetAudience
    f_campaignGoals f_budget f_platforms f_timeframe].
  rewrite !sanitizeInput_trim. reflexivity.
Qed.

(** ** [createCacheKey]: the range of the hash and its collisions *)

Lemma toInt32_range (z : Z) : -2147483648 <= toInt32 z < 2147483648.
Proof.
  unfold toInt32.
  pose proof (Z.mod_pos_bound (z + 2147483648) 4294967296 ltac:(lia)). lia.
Qed.

Lemma toInt32_add_l (a b : Z) : toInt32 (toInt32 a + b) = toInt32 (a + b).
Proof.
  unfold toInt32. f_equal.
  rewrite (Z.mod_eq (a + 2147483648) 4294967296) by lia.
  replace (a + 2147483648
           - 4294967296 * ((a + 2147483648) / 4294967296)
           - 2147483648 + b + 2147483648)
    with (a + b + 2147483648
          + (- ((a + 2147483648) / 4294967296)) * 4294967296) by ring.
  apply Z_mod_plus_full.
Qed.

(** The loop body computes [31 * hash + char] in 32-bit arithmetic. *)
Lemma hashStep_31 (hash : Z) (char : N) :
  hashStep hash char = toInt32 (31 * hash + Z.of_N char).
Proof.
  unfold hashStep. cbv zeta. rewrite Z.land_diag, Z.shiftl_mul_pow2 by lia.
  replace (toInt32 (hash * 2 ^ 5) - hash + Z.of_N char)
    with (toInt32 (hash * 2 ^ 5) + (- hash + Z.of_N char)) by ring.
  rewrite toInt32_add_l. f_equal. change (2 ^ 5) with 32. ring.
Qed.

Lemma hashStep_pair (hash : Z) (a b : N) :
  (31 <= b)%N ->
  hashStep (hashStep hash a) b = hashStep (hashStep hash (a + 1)) (b - 31).
Proof.
  intros Hb. rewrite !hashStep_31.
  rewrite !(Z.add_comm (31 * toInt32 _)).
  replace (Z.of_N b + 31 * toInt32 (31 * hash + Z.of_N a))
    with (toInt32 (31 * hash + Z.of_N a) * 31 + Z.of_N b) by ring.
  replace (Z.of_N (b - 31) + 31 * toInt32 (31 * hash + Z.of_N (a + 1)))
    with (toInt32 (31 * hash + Z.of_N (a + 1)) * 31 + Z.of_N (b - 31)) by ring.
  unfold toInt32 at 1 3. f_equal. 
  rewrite !N2Z.inj_sub, N2Z.inj_add by assumption.
  unfold toInt32.
  rewrite (Z.mod_eq (31 * hash + Z.of_N a + 2147483648) 4294967296) by lia.
  rewrite (Z.mod_eq (31 * hash + (Z.of_N a + Z.of_N 1) + 2147483648)
             4294967296) by lia.
  set (q1 := (31 * hash + Z.of_N a + 2147483648) / 4294967296).
  set (q2 := (31 * hash + (Z.of_N a + Z.of_N 1) + 2147483648) / 4294967296).
  replace ((31 * hash + Z.of_N a + 2147483648 - 4294967296 * q1 - 2147483648)
           * 31 + Z.of_N b + 2147483648)
    with (961 * hash + 31 * Z.of_N a + Z.of_N b + 2147483648
          + (- 31 * q1) * 4294967296) by ring.
  replace ((31 * hash + (Z.of_N a + Z.of_N 1) + 2147483648 - 4294967296 * q2
            - 2147483648) * 31 + (Z.of_N b - Z.of_N 31) + 2147483648)
    with (961 * hash + 31 * Z.of_N a + Z.of_N b + 2147483648
          + (- 31 * q2) * 4294967296)
    by (change (Z.of_N 1) with 1; change (Z.of_N 31) with 31; ring).
  rewrite !Z_mod_plus_full. reflexivity.
Qed.

Lemma hashString_pair (before after : jsstring) (a b : N) :
  (31 <= b)%N ->
  hashString (before ++ [a; b] ++ after)
  = hashString (before ++ [(a + 1)%N; (b - 31)%N] ++ after).
Proof.
  intros Hb. unfold hashString. rewrite !fold_left_app. cbn [fold_left].
  rewrite (hashStep_pair _ a b Hb). reflexivity.
Qed.

Lemma hashString_range (keyData : jsstring) :
  -2147483648 <= hashString keyData < 2147483648.
Proof.
  unfold hashString.
  assert (G : forall h, -2147483648 <= h < 2147483648 ->
                        -2147483648 <= fold_left hashStep keyData h < 2147483648).
  { induction keyData as [|c s IH]; intros h Hh; [exact Hh|].
    cbn [fold_left]. apply IH. rewrite hashStep_31. apply toInt32_range. }
  apply G. lia.
Qed.

(** X4. The cache key is "brief_" followed by the decimal writing of an
    integer between 0 and 2^31: it is never empty, so the workflow always
    uses the cache, and there are at most 2^31 + 1 keys for all requests. *)
Theorem cache_key_shape (inputs : BriefFields) :
  exists n : Z,
    0 <= n <= 2147483648
    /\ createCacheKey inputs = js "brief_" ++ numberToString n
    /\ truthy (Some (createCacheKey inputs)) = Some (createCacheKey inputs).
Proof.
  exists (Z.abs (hashString (stringifyInputs inputs))).
  pose proof (hashString_range (stringifyInputs inputs)).
  split; [lia|]. split; [reflexivity|].
  apply truthy_nonempty, createCacheKey_nonempty.
Qed.

Lemma plainUnit_spec (c : N) :
  plainUnit c = true ->
  quoteJSONUnit c = [c] /\ isHighSurrogate c = false
  /\ isLowSurrogate c = false.
Proof.
  unfold plainUnit. intros H.
  repeat (apply andb_true_iff in H as [H ?]).
  repeat match goal with
         | H : negb _ = true |- _ => apply negb_true_iff in H
         end.
  apply N.leb_le in H.
  split; [|split; assumption].
  unfold quoteJSONUnit.
  repeat match goal with
         | |- context [(c =? ?k)%N] =>
             destruct (N.eqb_spec c k); [subst; try discriminate; lia|]
         end.
  replace (c <? 32)%N with false by (symmetry; apply N.ltb_ge; lia).
  match goal with H1 : isHighSurrogate c = false,
                  H2 : isLowSurrogate c = false |- _ => rewrite H1, H2 end.
  reflexivity.
Qed.

Lemma quoteJSONBody_two (d e : N) (rest : jsstring) :
  quoteJSONBody false (d :: e :: rest)
  = if isHighSurrogate d && isLowSurrogate e
    then d :: quoteJSONBody true (e :: rest)
    else quoteJSONUnit d ++ quoteJSONBody false (e :: rest).
Proof. reflexivity. Qed.

Lemma quoteJSONBody_low (c : N) (rest : jsstring) :
  quoteJSONBody true (c :: rest) = c :: quoteJSONBody false rest.
Proof. reflexivity. Qed.

(** What [JSON.stringify] writes for the text before a code unit that is
    not a low surrogate does not depend on that code unit. *)
Lemma quoteJSONBody_prefix (before : jsstring) (pendingLow : bool) :
  (pendingLow = true -> before <> []) ->
  exists written,
    forall c rest,
      isLowSurrogate c = false ->
      quoteJSONBody pendingLow (before ++ c :: rest)
      = written ++ quoteJSONBody false (c :: rest).
Proof.
  revert pendingLow.
  induction before as [|d before IH]; intros pendingLow Hp.
  - destruct pendingLow; [exfalso; apply Hp; reflexivity|].
    exists []. reflexivity.
  - destruct pendingLow.
    + destruct (IH false ltac:(discriminate)) as (written & Hw).
      exists (d :: written). intros c rest Hc.
      change ((d :: before) ++ c :: rest) with (d :: (before ++ c :: rest)).
      rewrite quoteJSONBody_low, (Hw c rest Hc). reflexivity.
    + destruct before as [|e before'].
      * exists (quoteJSONUnit d). intros c rest Hc.
        change (([d] ++ c :: rest)) with (d :: c :: rest).
        rewrite quoteJSONBody_two, Hc, andb_false_r. reflexivity.
      * destruct (isHighSurrogate d && isLowSurrogate e) eqn:E.
        -- destruct (IH true ltac:(discriminate)) as (written & Hw).
           exists (d :: written). intros c rest Hc.
           change ((d :: e :: before') ++ c :: rest)
             with (d :: e :: (before' ++ c :: rest)).
           rewrite quoteJSONBody_two, E.
           change (e :: before' ++ c :: rest)
             with ((e :: before') ++ c :: rest).
           rewrite (Hw c rest Hc). reflexivity.
        -- destruct (IH false ltac:(discriminate)) as (written & Hw).
           exists (quoteJSONUnit d ++ written). intros c rest Hc.
           change ((d :: e :: before') ++ c :: rest)
             with (d :: e :: (before' ++ c :: rest)).
           rewrite quoteJSONBody_two, E.
           change (e :: before' ++ c :: rest)
             with ((e :: before') ++ c :: rest).
           rewrite (Hw c rest Hc), <- app_assoc. reflexivity.
Qed.

Lemma quoteJSONBody_plain (c : N) (rest : jsstring) :
  plainUnit c = true ->
  quoteJSONBody false (c :: rest) = c :: quoteJSONBody false rest.
Proof.
  intros H. apply plainUnit_spec in H as (Hq & Hh & _).
  cbn [quoteJSONBody]. destruct rest as [|d rest'].
  - rewrite Hq. reflexivity.
  - rewrite Hh, Hq. reflexivity.
Qed.

(** The JSON text of the inputs around the product description. *)
Lemma stringifyInputs_split (f : BriefFields) :
  exists headText tailText,
    forall pd,
      stringifyInputs (withProductDescription pd f)
      = headText ++ quoteJSONBody false pd ++ tailText.
Proof.
  eexists (js "{" ++ quoteJSONString (js "productDescription") ++ js ":" ++ [34%N]), _.
  intros pd. unfold stringifyInputs, withProductDescription.
  cbn [f_productDescription f_targetAudience f_campaignGoals f_budget
       f_platforms f_timeframe].
  unfold quoteJSONString at 2.
  rewrite <- !app_assoc. reflexivity.
Qed.

(** X5. The hash has collisions of the kind of "Aa" and "BB": replacing
    two adjacent code units [a], [b] of the product description by [a + 1],
    [b - 31] leaves the cache key unchanged, whenever the four code units
    are written as they are by [JSON.stringify]. Two such requests have
    the same fingerprint. *)
Theorem colliding_descriptions_share_a_key (f : BriefFields)
    (before after : jsstring) (a b : N) :
  (31 <= b)%N ->
  plainUnit a = true -> plainUnit b = true ->
  plainUnit (a + 1) = true -> plainUnit (b - 31) = true ->
  createCacheKey (withProductDescription (before ++ [a; b] ++ after) f)
  = createCacheKey
      (withProductDescription (before ++ [(a + 1)%N; (b - 31)%N] ++ after) f).
Proof.
  intros Hb Ha Hb' Ha1 Hb1.
  destruct (stringifyInputs_split f) as (headText & tailText & Hs).
  unfold createCacheKey. cbv zeta. rewrite !Hs.
  destruct (quoteJSONBody_prefix before false ltac:(discriminate))
    as (written & Hw).
  cbn [app].
  rewrite (Hw a (b :: after)), (Hw (a + 1)%N ((b - 31)%N :: after));
    try (apply plainUnit_spec; assumption).
  rewrite !quoteJSONBody_plain by assumption.
  replace (headText ++ (written ++ a :: b :: quoteJSONBody false after)
           ++ tailText)
    with ((headText ++ written) ++ [a; b]
          ++ (quoteJSONBody false after ++ tailText))
    by (rewrite <- !app_assoc; reflexivity).
  replace (headText
           ++ (written ++ (a + 1)%N :: (b - 31)%N :: quoteJSONBody false after)
           ++ tailText)
    with ((headText ++ written) ++ [(a + 1)%N; (b - 31)%N]
          ++ (quoteJSONBody false after ++ tailText))
    by (rewrite <- !app_assoc; reflexivity).
  rewrite (hashString_pair _ _ a b Hb). reflexivity.
Qed.

(** X5, an instance: "Aa" and "BB" inside two product descriptions. *)
Lemma colliding_descriptions_share_a_key_witness :
  createCacheKey (defaulted (sampleInput "Brand Aa water bottle" "u1"))
  = createCacheKey (defaulted (sampleInput "Brand BB water bottle" "u2")).
Proof.
  exact (colliding_descriptions_share_a_key
           (defaulted (sampleInput "" "u1"))
           (js "Brand ") (js " water bottle") 65%N 97%N
           ltac:(vm_compute; discriminate) eq_refl eq_refl eq_refl eq_refl).
Defined.

(** ** The workflow and a shared fingerprint *)

(** X6. The cache is read by fingerprint alone: once a run for one input
    has succeeded, a run for any valid input with the same fingerprint,
    on an entry less than one hour old, returns the brief of the first
    run without a backend call, whatever its own prompt is. *)
Theorem same_fingerprint_same_brief (i1 i2 : CreatorBriefInput)
    (brief : JSValue) (w w1 : World) :
  createCacheKey (defaulted i1) = createCacheKey (defaulted i2) ->
  validateInputs (productDescription i2) (targetAudience i2) = Ok tt ->
  generateCreatorBrief i1 w = (Ok brief, w1) ->
  fresh (createCacheKey (defaulted i1)) w1 ->
  generateCreatorBrief i2 w1 = (Ok brief, tick w1)
  /\ calls (tick w1) = calls w1.
Proof.
  intros Hkey Hv2 Hrun Hfresh.
  destruct (workflow_success _ _ _ _ Hrun) as (Hv & response & Hc & Hb).
  destruct (workflow_completed _ _ _ _ Hv Hc) as (_ & cached & Hin & Hdata).
  pose proof (Hfresh _ Hin) as Hage. rewrite Hkey in Hin.
  destruct (workflow_replay i2 cached w1 Hv2 Hin Hage) as (_ & Hg).
  rewrite Hdata, Hb in Hg. split; [exact Hg|reflexivity].
Qed.

(** X6, an instance: the requests for "Brand Aa" and "Brand BB" have
    different prompts, and the second gets the brief of the first. *)
Lemma same_fingerprint_same_brief_witness :
  let i1 := sampleInput "Brand Aa water bottle" "u1" in
  let i2 := sampleInput "Brand BB water bottle" "u2" in
  let w0 := newService openai (steadyClock 1) (answering sampleBriefText) in
  let w1 := snd (generateCreatorBrief i1 w0) in
  buildPrompt (defaulted i1) <> buildPrompt (defaulted i2)
  /\ fst (generateCreatorBrief i2 w1) = fst (generateCreatorBrief i1 w0)
  /\ calls (snd (generateCreatorBrief i2 w1)) = calls w1.
Proof.
  cbv zeta.
  set (i1 := sampleInput "Brand Aa water bottle" "u1").
  set (i2 := sampleInput "Brand BB water bottle" "u2").
  set (w0 := newService openai (steadyClock 1) (answering sampleBriefText)).
  split; [vm_compute; discriminate|].
  destruct (generateCreatorBrief i1 w0) as [[brief|e] w1] eqn:Hrun;
    [|vm_compute in Hrun; discriminate].
  cbn [fst snd].
  assert (Hkey : createCacheKey (defaulted i1) = createCacheKey (defaulted i2))
    by (vm_compute; reflexivity).
  assert (Hv2 : validateInputs (productDescription i2) (targetAudience i2)
                = Ok tt) by (vm_compute; reflexivity).
  assert (Hfresh : fresh (createCacheKey (defaulted i1)) w1).
  { assert (Hw : w1 = snd (generateCreatorBrief i1 w0))
      by (rewrite Hrun; reflexivity).
    intros cached Hc. rewrite Hw in *.
    assert (E : cached = {| data := sampleBriefText; timestamp := 1 |}).
    { vm_compute in Hc. inversion Hc. vm_compute. reflexivity. }
    rewrite E. vm_compute. reflexivity. }
  destruct (same_fingerprint_same_brief i1 i2 brief w0 w1 Hkey Hv2 Hrun Hfresh)
    as (Hg & _).
  rewrite Hg. split; reflexivity.
Defined.

(** ** [includes] and the classification of errors *)

Lemma stripPrefix_app (pat rest : jsstring) :
  stripPrefix pat (pat ++ rest) = Some rest.
Proof.
  induction pat as [|c pat IH]; [reflexivity|].
  cbn [stripPrefix app]. rewrite N.eqb_refl. exact IH.
Qed.

Lemma stripPrefix_Some (pat s rest : jsstring) :
  stripPrefix pat s = Some rest -> s = pat ++ rest.
Proof.
  revert s. induction pat as [|c pat IH]; intros s H.
  - inversion H. reflexivity.
  - destruct s as [|d s]; [discriminate|]. cbn [stripPrefix] in H.
    destruct (N.eqb_spec c d) as [->|]; [|discriminate].
    cbn [app]. f_equal. apply IH, H.
Qed.

Lemma splitAtFirst_Some (pat s before after : jsstring) :
  splitAtFirst pat s = Some (before, after) -> s = before ++ pat ++ after.
Proof.
  revert before. induction s as [|c s IH]; intros before H.
  - cbn [splitAtFirst] in H.
    destruct (stripPrefix pat []) as [rest|] eqn:E; [|discriminate].
    inversion H; subst. apply stripPrefix_Some in E. exact E.
  - cbn [splitAtFirst] in H.
    destruct (stripPrefix pat (c :: s)) as [rest|] eqn:E.
    + inversion H; subst. apply stripPrefix_Some in E. exact E.
    + destruct (splitAtFirst pat s) as [[b a]|] eqn:E2; [|discriminate].
      inversion H; subst. cbn [app]. f_equal. apply IH. reflexivity.
Qed.

Lemma includes_occurrence (pat before after : jsstring) :
  includes (before ++ pat ++ after) pat = true.
Proof.
  unfold includes. induction before as [|c before IH].
  - cbn [app]. destruct (pat ++ after) as [|d r] eqn:E.
    + cbn [splitAtFirst]. rewrite <- E, stripPrefix_app. reflexivity.
    + cbn [splitAtFirst]. rewrite <- E, stripPrefix_app. reflexivity.
  - cbn [app splitAtFirst].
    destruct (stripPrefix pat (c :: before ++ pat ++ after)); [reflexivity|].
    destruct (splitAtFirst pat (before ++ pat ++ after)) as [[b a]|];
      [reflexivity|discriminate].
Qed.

Lemma includes_app_l (prefix s pat : jsstring) :
  includes s pat = true -> includes (prefix ++ s) pat = true.
Proof.
  unfold includes at 1.
  destruct (splitAtFirst pat s) as [[b a]|] eqn:E; [|discriminate].
  intros _. apply splitAtFirst_Some in E. subst s.
  rewrite app_assoc. apply includes_occurrence.
Qed.

Lemma surfaced_forms (e : Thrown) :
  surfaced e = JsError tooManyRequests
  \/ surfaced e = JsError failedToProcess
  \/ surfaced e = JsError (failedToGenerate (messageOf e))
     /\ includes (messageOf e) (js "Rate limit exceeded") = false
     /\ includes (messageOf e) (js "JSON") = false.
Proof.
  unfold surfaced, tooManyRequests, failedToProcess, failedToGenerate.
  cbv zeta.
  destruct (includes (messageOf e) (js "Rate limit exceeded")); [auto|].
  destruct (includes (messageOf e) (js "JSON")); auto.
Qed.

(** X7. Every failure of the workflow is an [Error] whose message is
    "Too many requests. Please try again in an hour.", or "Failed to
    process AI response. Please try again.", or "Failed to generate creator
    brief: " followed by a message that mentions neither "Rate limit
    exceeded" nor "JSON". *)
Theorem workflow_failure_forms (input : CreatorBriefInput) (w : World) :
  isOk (fst (generateCreatorBrief input w)) = true
  \/ fst (generateCreatorBrief input w) = Throw (JsError tooManyRequests)
  \/ fst (generateCreatorBrief input w) = Throw (JsError failedToProcess)
  \/ exists m,
       fst (generateCreatorBrief input w)
       = Throw (JsError (failedToGenerate m))
       /\ includes m (js "Rate limit exceeded") = false
       /\ includes m (js "JSON") = false.
Proof.
  assert (G : forall e,
             @Throw JSValue (surfaced e) = Throw (JsError tooManyRequests)
             \/ @Throw JSValue (surfaced e) = Throw (JsError failedToProcess)
             \/ exists m,
                  @Throw JSValue (surfaced e)
                  = Throw (JsError (failedToGenerate m))
                  /\ includes m (js "Rate limit exceeded") = false
                  /\ includes m (js "JSON") = false).
  { intros e. destruct (surfaced_forms e) as [->|[->|(-> & H1 & H2)]];
      [left; reflexivity|right; left; reflexivity|].
    right; right. exists (messageOf e). repeat split; assumption. }
  rewrite generateCreatorBrief_run.
  destruct (validateInputs _ _) as [[]|e]; [|right; cbn [fst]; apply G].
  destruct (completionFor input w) as [[response|e] w'];
    [|right; cbn [fst]; apply G].
  cbn [fst]. unfold briefOf.
  destruct (parseAndValidateResponse response) as [brief|e];
    [left; reflexivity|right; apply G].
Qed.

(** A run of the workflow that reaches the adapter and whose backend call
    fails with the message [m]. *)
Lemma workflow_backend_failure (input : CreatorBriefInput) (m : jsstring)
    (w : World) :
  validateInputs (productDescription input) (targetAudience input) = Ok tt ->
  cacheHit (Some (createCacheKey (defaulted input))) w = false ->
  limitedAt (userId input)
    (afterCacheCheck (Some (createCacheKey (defaulted input))) w) = false ->
  backendFailure w (buildPrompt (defaulted input)) = Some m ->
  exists w1,
    generateCreatorBrief input w
    = (Throw (surfaced (JsError (js "AI service failed: " ++ m))), w1)
    /\ cache w1 = cache w /\ rateLimiter w1 = rateLimiter w.
Proof.
  intros Hv Hmiss Hlim Hfail.
  destruct (afterCacheCheck_frame (Some (createCacheKey (defaulted input))) w)
    as (n1 & _ & E1).
  rewrite E1 in Hlim.
  destruct (afterRateCheck_frame (userId input) (set_ticks n1 w)) as (n2 & E2).
  assert (Hfail' : backendFailure (set_ticks n2 (set_ticks n1 w))
                     (buildPrompt (defaulted input)) = Some m) by exact Hfail.
  destruct (generateCompletion_failure _ _ _ Hfail') as (l & Hgen & _).
  exists (set_calls l (set_ticks n2 (set_ticks n1 w))).
  split; [|split; reflexivity].
  rewrite generateCreatorBrief_run, Hv. unfold completionFor.
  rewrite generateCompletionWithCache_run, Hmiss. cbv zeta.
  rewrite E1, Hlim, E2, Hgen. reflexivity.
Qed.

(** X8. The [catch] of the workflow classifies by the text of the message.
    When the backend call fails with a message that contains "Rate limit
    exceeded", the caller is told "Too many requests. Please try again in
    an hour.", although the limiter admitted the request and nothing was
    recorded; when the message contains "JSON" (and the whole message does
    not contain "Rate limit exceeded"), the caller is told that the
    response could not be processed. *)
Theorem backend_message_decides_the_error_kind (input : CreatorBriefInput)
    (m : jsstring) (w : World) :
  validateInputs (productDescription input) (targetAudience input) = Ok tt ->
  cacheHit (Some (createCacheKey (defaulted input))) w = false ->
  limitedAt (userId input)
    (afterCacheCheck (Some (createCacheKey (defaulted input))) w) = false ->
  backendFailure w (buildPrompt (defaulted input)) = Some m ->
  exists w1,
    rateLimiter w1 = rateLimiter w
    /\ (includes m (js "Rate limit exceeded") = true ->
        generateCreatorBrief input w = (Throw (JsError tooManyRequests), w1))
    /\ (includes (js "AI service failed: " ++ m) (js "Rate limit exceeded")
        = false ->
        includes m (js "JSON") = true ->
        generateCreatorBrief input w = (Throw (JsError failedToProcess), w1)).
Proof.
  intros Hv Hmiss Hlim Hfail.
  destruct (workflow_backend_failure _ _ _ Hv Hmiss Hlim Hfail)
    as (w1 & Hg & _ & Hr).
  exists w1. split; [exact Hr|]. split.
  - intros Hin. rewrite Hg. unfold surfaced. cbn [messageOf].
    rewrite (includes_app_l _ _ _ Hin). reflexivity.
  - intros Hno Hin. rewrite Hg. unfold surfaced. cbn [messageOf].
    rewrite Hno, (includes_app_l _ _ _ Hin). reflexivity.
Qed.

(** X8, an instance: the provider answers 429. *)
Lemma backend_message_decides_the_error_kind_witness :
  fst (generateCreatorBrief (sampleInput "Eco bottle" "u1")
         (newService openai (steadyClock 1)
            (rejecting (js "429 Rate limit exceeded for gpt-4o"))))
  = Throw (JsError tooManyRequests).
Proof.
  destruct (backend_message_decides_the_error_kind
              (sampleInput "Eco bottle" "u1")
              (js "429 Rate limit exceeded for gpt-4o")
              (newService openai (steadyClock 1)
                 (rejecting (js "429 Rate limit exceeded for gpt-4o")))
              ltac:(vm_compute; reflexivity) ltac:(vm_compute; reflexivity)
              ltac:(vm_compute; reflexivity) ltac:(vm_compute; reflexivity))
    as (w1 & _ & H & _).
  rewrite H; [reflexivity|vm_compute; reflexivity].
Defined.

(** ** The orchestrator: what a call leaves untouched *)

Lemma putWorld_rateLimiter (cacheKey : option jsstring) (result : jsstring)
    (w : World) :
  rateLimiter (putWorld cacheKey result w) = rateLimiter w.
Proof.
  unfold putWorld. destruct (truthy cacheKey); [rewrite cachePut_run|];
    reflexivity.
Qed.

Lemma putWorld_clock (cacheKey : option jsstring) (result : jsstring)
    (w : World) :
  clock (putWorld cacheKey result w) = clock w.
Proof.
  unfold putWorld. destruct (truthy cacheKey); [rewrite cachePut_run|];
    reflexivity.
Qed.

Lemma recordWorld_cache (rateLimitKey : option jsstring) (w : World) :
  cache (recordWorld rateLimitKey w) = cache w.
Proof.
  unfold recordWorld. destruct (truthy rateLimitKey);
    [rewrite updateRateLimit_run|]; reflexivity.
Qed.

(** The rate limiter after a call: as before, or with one clock reading
    appended to the window of the truthy caller of the call. *)
Lemma generateCompletionWithCache_rateLimiter (prompt : jsstring)
    (cacheKey rateLimitKey : option jsstring) (w : World) :
  let w' := snd (generateCompletionWithCache prompt cacheKey rateLimitKey w) in
  rateLimiter w' = rateLimiter w
  \/ exists uid i,
       truthy rateLimitKey = Some uid
       /\ rateLimiter w'
          = <[uid := requestsOf w uid ++ [clock w i]]> (rateLimiter w).
Proof.
  cbv zeta. rewrite generateCompletionWithCache_run.
  destruct (cacheHit cacheKey w).
  { destruct (truthy cacheKey) as [key|]; [destruct (cache w !! key)|];
      left; reflexivity. }
  cbv zeta.
  destruct (afterCacheCheck_frame cacheKey w) as (n1 & _ & ->).
  destruct (afterRateCheck_frame rateLimitKey (set_ticks n1 w)) as (n2 & ->).
  destruct (limitedAt rateLimitKey _); [left; reflexivity|].
  destruct (generateCompletion_world prompt (set_ticks n2 (set_ticks n1 w)))
    as (l & Hl).
  destruct (generateCompletion prompt _) as [[r|e] w1]; cbn [snd] in *;
    subst w1; [|left; reflexivity].
  unfold recordWorld. destruct (truthy rateLimitKey) as [uid|].
  - right. exists uid. rewrite updateRateLimit_run.
    unfold requestsOf, nextNow, tick. world_simpl.
    rewrite putWorld_rateLimiter, putWorld_clock. world_simpl.
    eexists. split; reflexivity.
  - left. rewrite putWorld_rateLimiter. reflexivity.
Qed.

(** X9. A call made for one caller never changes the window of another
    caller: the windows are keyed by the truthy rate-limit key of the call
    and by nothing else. *)
Theorem callers_do_not_share_windows (prompt : jsstring)
    (cacheKey rateLimitKey : option jsstring) (other : jsstring) (w : World) :
  truthy rateLimitKey <> Some other ->
  requestsOf (snd (generateCompletionWithCache prompt cacheKey rateLimitKey w))
    other
  = requestsOf w other.
Proof.
  intros Hne.
  destruct (generateCompletionWithCache_rateLimiter prompt cacheKey
              rateLimitKey w) as [H|(uid & i & Hu & H)];
    unfold requestsOf; rewrite H; [reflexivity|].
  rewrite lookup_insert_ne; [reflexivity|].
  intros ->. apply Hne. exact Hu.
Qed.

(** X9, an instance: [u1] is served, the window of [u2] stays empty. *)
Lemma callers_do_not_share_windows_witness :
  requestsOf
    (snd (generateCompletionWithCache (js "p") None (Some (js "u1"))
            (newService openai (steadyClock 1) (answering sampleBriefText))))
    (js "u2")
  = [].
Proof.
  rewrite (callers_do_not_share_windows (js "p") None (Some (js "u1"))
             (js "u2")); [reflexivity|].
  vm_compute. discriminate.
Defined.

(** X10. A request without a caller identity ([undefined] or the empty
    string) is never refused by the limiter and is never recorded: the
    rate limiter is the same after the call, and the call does not fail
    with the rate-limit error. *)
Theorem anonymous_requests_are_not_limited (prompt : jsstring)
    (cacheKey rateLimitKey : option jsstring) (w : World) :
  truthy rateLimitKey = None ->
  let run := generateCompletionWithCache prompt cacheKey rateLimitKey w in
  rateLimiter (snd run) = rateLimiter w
  /\ fst run <> Throw rateLimitError.
Proof.
  intros Hanon. cbv zeta. split.
  - destruct (generateCompletionWithCache_rateLimiter prompt cacheKey
                rateLimitKey w) as [H|(uid & i & Hu & _)]; [exact H|].
    rewrite Hanon in Hu. discriminate.
  - destruct (cacheHit cacheKey w) eqn:Hhit.
    + destruct (generateCompletionWithCache_hit prompt _ rateLimitKey _ Hhit)
        as (key & cached & _ & _ & ->). discriminate.
    + rewrite generateCompletionWithCache_run, Hhit. cbv zeta.
      unfold limitedAt, afterRateCheck. rewrite Hanon.
      pose proof (generateCompletion_not_rate_limit prompt
                    (afterCacheCheck cacheKey w)) as Hn.
      destruct (generateCompletion prompt _) as [[r|e] w1]; [discriminate|].
      exact Hn.
Qed.

(** X10, an instance: eleven requests with the empty string as caller
    identity all reach the backend. *)
Lemma anonymous_requests_are_not_limited_witness :
  let w0 := newService openai (steadyClock 1) (answering sampleBriefText) in
  let w10 := snd (requestMany 10 (js "p") [] w0) in
  length (calls w10) = 10%nat
  /\ rateLimiter
       (snd (generateCompletionWithCache (js "p") None (Some []) w10))
     = rateLimiter w10
  /\ fst (generateCompletionWithCache (js "p") None (Some []) w10)
     <> Throw rateLimitError.
Proof.
  cbv zeta. split; [vm_compute; reflexivity|].
  exact (anonymous_requests_are_not_limited (js "p") None (Some [])
           (snd (requestMany 10 (js "p") []
                   (newService openai (steadyClock 1)
                      (answering sampleBriefText))))
           eq_refl).
Defined.

Lemma recent_none (now : Z) (requests : list Z) :
  Forall (fun t => t <= now - 3600000) requests -> recent now requests = [].
Proof.
  unfold recent. induction 1 as [|t l Ht _ IH]; [reflexivity|].
  cbn [List.filter]. replace (now - 3600000 <? t) with false
    by (symmetry; apply Z.ltb_ge; exact Ht).
  exact IH.
Qed.

(** X11. The window slides: when every timestamp recorded for a caller is
    at least one hour old at the check, the caller is not limited, however
    many timestamps are stored. *)
Theorem old_requests_do_not_limit (uid : jsstring) (w : World) :
  Forall (fun t => t <= nextNow w - 3600000) (requestsOf w uid) ->
  isRateLimited uid w = (Ok false, tick w).
Proof.
  intros H. rewrite isRateLimited_run, (recent_none _ _ H). reflexivity.
Qed.

(** X11, an instance: twelve requests at time 0, a check one hour later. *)
Lemma old_requests_do_not_limit_witness :
  let w := serviceWithWindow (js "u1") (repeat 0 12) (fun _ => 3600000)
             (answering sampleBriefText) in
  length (requestsOf w (js "u1")) = 12%nat
  /\ isRateLimited (js "u1") w = (Ok false, tick w).
Proof.
  cbv zeta. split; [vm_compute; reflexivity|].
  apply old_requests_do_not_limit.
  vm_compute. repeat constructor; discriminate.
Defined.

(** X12. A call never removes a cache entry and writes at most one: after
    the call, every key has the entry it had, except the truthy cache key of
    the call, which may hold the text the call returned. *)
Theorem cache_is_written_under_the_key_only (prompt : jsstring)
    (cacheKey rateLimitKey : option jsstring) (key : jsstring) (w : World) :
  let run := generateCompletionWithCache prompt cacheKey rateLimitKey w in
  cache (snd run) !! key = cache w !! key
  \/ truthy cacheKey = Some key
     /\ exists result time,
          fst run = Ok result
          /\ cache (snd run) !! key
             = Some {| data := result; timestamp := time |}.
Proof.
  cbv zeta. rewrite generateCompletionWithCache_run.
  destruct (cacheHit cacheKey w).
  { destruct (truthy cacheKey) as [k|]; [destruct (cache w !! k)|];
      left; reflexivity. }
  cbv zeta.
  destruct (afterCacheCheck_frame cacheKey w) as (n1 & _ & ->).
  destruct (afterRateCheck_frame rateLimitKey (set_ticks n1 w)) as (n2 & ->).
  destruct (limitedAt rateLimitKey _); [left; reflexivity|].
  destruct (generateCompletion_world prompt (set_ticks n2 (set_ticks n1 w)))
    as (l & Hl).
  destruct (generateCompletion prompt _) as [[r|e] w1]; cbn [snd fst] in *;
    subst w1; [|left; reflexivity].
  rewrite recordWorld_cache. unfold putWorld.
  destruct (truthy cacheKey) as [k|]; [|left; reflexivity].
  rewrite cachePut_run. unfold tick. world_simpl.
  destruct (decide (k = key)) as [->|Hne].
  - right. split; [reflexivity|]. rewrite lookup_insert_eq. eauto.
  - left. rewrite lookup_insert_ne by exact Hne. reflexivity.
Qed.

(** X13. A stale entry is refreshed by the next answered call: when the
    entry under a non-empty key is one hour old or more and the call
    returns a text, that text came from one backend call and has replaced
    the old entry, with a later reading of the clock as its timestamp. *)
Theorem stale_entry_is_refreshed (prompt key : jsstring)
    (rateLimitKey : option jsstring) (old : CacheEntry) (result : jsstring)
    (w w1 : World) :
  key <> [] ->
  cache w !! key = Some old ->
  3600000 <= nextNow w - timestamp old ->
  generateCompletionWithCache prompt (Some key) rateLimitKey w
  = (Ok result, w1) ->
  (exists sent, calls w1 = calls w ++ [sent])
  /\ exists i, (ticks w < i)%nat
               /\ cache w1 !! key
                  = Some {| data := result; timestamp := clock w i |}.
Proof.
  intros Hne Hold Hage Hrun.
  assert (Hmiss : cacheHit (Some key) w = false).
  { unfold cacheHit. rewrite (truthy_nonempty _ Hne), Hold.
    apply Z.ltb_ge. exact Hage. }
  split; [exact (miss_calls_backend _ _ _ _ _ _ Hmiss Hrun)|].
  revert Hrun. rewrite generateCompletionWithCache_run, Hmiss. cbv zeta.
  unfold afterCacheCheck. rewrite (truthy_nonempty _ Hne), Hold.
  destruct (afterRateCheck_frame rateLimitKey (tick w)) as (n2 & E2).
  assert (Hn2 : (ticks w < n2)%nat).
  { unfold afterRateCheck, tick in E2. destruct w.
    destruct (truthy rateLimitKey); inversion E2; cbn; lia. }
  rewrite E2. destruct (limitedAt rateLimitKey _); [discriminate|].
  destruct (generateCompletion_world prompt (set_ticks n2 (tick w)))
    as (l & Hl).
  destruct (generateCompletion prompt _) as [[r|e] w']; [|discriminate].
  cbn [snd] in Hl. subst w'. intros H. inversion H; subst. clear H.
  rewrite recordWorld_cache. unfold putWorld.
  rewrite (truthy_nonempty _ Hne), cachePut_run.
  unfold nextNow, tick. world_simpl. rewrite lookup_insert_eq.
  exists n2. split; [exact Hn2|reflexivity].
Qed.

(** X13, an instance: an entry stored at time 0, a call after one hour. *)
Lemma stale_entry_is_refreshed_witness :
  let w := serviceWithEntry (js "brief_1") (js "old text") 0
             (fun _ => 3600000) (answering sampleBriefText) in
  exists w1,
    generateCompletionWithCache (js "p") (Some (js "brief_1")) None w
    = (Ok sampleBriefText, w1)
    /\ cache w1 !! js "brief_1"
       = Some {| data := sampleBriefText; timestamp := 3600000 |}.
Proof.
  cbv zeta.
  set (w := serviceWithEntry (js "brief_1") (js "old text") 0
              (fun _ => 3600000) (answering sampleBriefText)).
  destruct (generateCompletionWithCache (js "p") (Some (js "brief_1")) None w)
    as [res w1] eqn:Hrun.
  assert (Hres : res = Ok sampleBriefText).
  { change res with (fst (res, w1)). rewrite <- Hrun. vm_compute. reflexivity. }
  subst res. exists w1. split; [reflexivity|].
  destruct (stale_entry_is_refreshed (js "p") (js "brief_1") None
              {| data := js "old text"; timestamp := 0 |} sampleBriefText w w1
              ltac:(discriminate) ltac:(vm_compute; reflexivity)
              ltac:(vm_compute; discriminate) Hrun) as (_ & i & _ & Hc).
  rewrite Hc. reflexivity.
Defined.

(** ** The adapter *)

(** What the adapter leaves in the log: nothing for an unknown provider,
    else the prompt it sent, which for Gemini starts with the system
    instruction. *)
Lemma generateCompletion_sent (prompt : jsstring) (w : World) :
  exists l,
    snd (generateCompletion prompt w) = set_calls l w
    /\ (l = calls w \/ l = calls w ++ [prompt]
        \/ l = calls w ++ [systemPrompt ++ [10%N; 10%N] ++ prompt]).
Proof.
  unfold generateCompletion, tryCatch, bind, gets, throw.
  destruct w as [cfg c r clk t b l]. world_simpl.
  destruct cfg.
  - exists (l ++ [prompt]). split; [|auto].
    unfold generateOpenAICompletion, bind, callBackend, throw, ret.
    world_simpl.
    destruct (openai_create b (length l) prompt) as [content|e];
      [destruct (truthy content)|]; reflexivity.
  - exists (l ++ [prompt]). split; [|auto].
    unfold generateAnthropicCompletion, bind, callBackend, throw, ret.
    world_simpl.
    destruct (anthropic_create b (length l) prompt) as [[|[text|ty] rest]|e];
      reflexivity.
  - exists (l ++ [systemPrompt ++ [10%N; 10%N] ++ prompt]).
    split; [|auto].
    unfold generateGeminiCompletion, bind, callBackend, throw, ret.
    world_simpl.
    destruct (gemini_generate b (length l) _) as [content|e];
      [destruct (truthy (Some content))|]; reflexivity.
  - exists l. split; [reflexivity|auto].
Qed.

Lemma truthy_inv (o : option jsstring) (s : jsstring) :
  truthy o = Some s -> o = Some s.
Proof. intros H. apply truthy_Some in H as [H _]. exact H. Qed.

(** X14. A text returned by the adapter is trimmed, and it came from
    exactly one backend call. *)
Theorem completion_is_trimmed (prompt result : jsstring) (w w' : World) :
  generateCompletion prompt w = (Ok result, w') ->
  trim result = result
  /\ exists sent, w' = set_calls (calls w ++ [sent]) w.
Proof.
  intros H. split; [|exact (generateCompletion_ok_calls _ _ _ _ H)].
  revert H. unfold generateCompletion, tryCatch, bind, gets, throw.
  destruct w as [cfg c r clk t b l]. world_simpl.
  destruct cfg.
  - unfold generateOpenAICompletion, bind, callBackend, throw, ret.
    world_simpl.
    destruct (openai_create b (length l) prompt) as [content|e];
      [destruct (truthy content)|]; intros H; inversion H.
    apply trim_idem.
  - unfold generateAnthropicCompletion, bind, callBackend, throw, ret.
    world_simpl.
    destruct (anthropic_create b (length l) prompt) as [[|[text|ty] rest]|e];
      intros H; inversion H. apply trim_idem.
  - unfold generateGeminiCompletion, bind, callBackend, throw, ret.
    world_simpl.
    destruct (gemini_generate b (length l) _) as [content|e];
      [destruct (truthy (Some content))|]; intros H; inversion H.
    apply trim_idem.
  - discriminate.
Qed.

(** X14, an instance. *)
Lemma completion_is_trimmed_witness :
  trim sampleBriefText = sampleBriefText.
Proof.
  exact (proj1 (completion_is_trimmed (js "p") sampleBriefText
                  (newService gemini (steadyClock 1)
                     (answering (js "  " ++ sampleBriefText ++ [10%N])))
                  _ ltac:(vm_compute; reflexivity))).
Defined.

(** X15. A content made of white space only is not a failure for the
    adapter: it returns the empty text (which the orchestrator then caches
    like any other), and the workflow reports that text as a response it
    could not process. *)
Theorem blank_content_is_an_empty_completion (prompt content : jsstring)
    (w : World) :
  content <> [] ->
  trim content = [] ->
  config w = openai
  /\ openai_create (backends w) (length (calls w)) prompt = Ok (Some content)
  \/ config w = gemini
     /\ gemini_generate (backends w) (length (calls w))
          (systemPrompt ++ [10%N; 10%N] ++ prompt) = Ok content
  \/ config w = anthropic
     /\ (exists rest,
           anthropic_create (backends w) (length (calls w)) prompt
           = Ok (TextBlock content :: rest)) ->
  fst (generateCompletion prompt w) = Ok []
  /\ briefOf [] = Throw (JsError failedToProcess).
Proof.
  intros Hne Hblank Hcase. split; [|vm_compute; reflexivity].
  unfold generateCompletion, tryCatch, bind, gets, throw.
  destruct w as [cfg c r clk t b l]. world_simpl.
  destruct content as [|x content']; [contradiction|].
  destruct Hcase as [[-> H]|[[-> H]|[-> (rest & H)]]].
  - unfold generateOpenAICompletion, bind, callBackend, throw, ret.
    world_simpl. rewrite H. cbn [truthy fst]. rewrite Hblank. reflexivity.
  - unfold generateGeminiCompletion, bind, callBackend, throw, ret.
    world_simpl. rewrite H. cbn [truthy fst]. rewrite Hblank. reflexivity.
  - unfold generateAnthropicCompletion, bind, callBackend, throw, ret.
    world_simpl. rewrite H. cbn [fst]. rewrite Hblank. reflexivity.
Qed.

(** X15, an instance: the backend returns two spaces and a line feed. *)
Lemma blank_content_is_an_empty_completion_witness :
  generateCreatorBrief (sampleInput "Eco bottle" "u1")
    (newService openai (steadyClock 1) (answering (js "  " ++ [10%N])))
  = (Throw (JsError failedToProcess),
     snd (completionFor (sampleInput "Eco bottle" "u1")
            (newService openai (steadyClock 1)
               (answering (js "  " ++ [10%N])))))
  /\ fst (generateCompletion (js "p")
            (newService openai (steadyClock 1)
               (answering (js "  " ++ [10%N])))) = Ok [].
Proof.
  split; [vm_compute; reflexivity|].
  apply (blank_content_is_an_empty_completion (js "p") (js "  " ++ [10%N])).
  - discriminate.
  - vm_compute. reflexivity.
  - left. split; reflexivity.
Defined.

(** ** The workflow as a whole *)

(** X16. A run of the workflow makes at most one backend call, and the
    prompt it sends is the one [buildPrompt] makes from the defaulted
    fields (after the system instruction, for Gemini). The provider, the
    clock and the backends are never changed. *)
Theorem workflow_calls_backend_at_most_once (input : CreatorBriefInput)
    (w : World) :
  let w' := snd (generateCreatorBrief input w) in
  let prompt := buildPrompt (defaulted input) in
  (calls w' = calls w
   \/ calls w' = calls w ++ [prompt]
   \/ calls w' = calls w ++ [systemPrompt ++ [10%N; 10%N] ++ prompt])
  /\ config w' = config w /\ clock w' = clock w /\ backends w' = backends w.
Proof.
  cbv zeta.
  assert (G : forall w1,
             snd (completionFor input w) = w1 ->
             (calls w1 = calls w
              \/ calls w1 = calls w ++ [buildPrompt (defaulted input)]
              \/ calls w1
                 = calls w
                   ++ [systemPrompt ++ [10%N; 10%N]
                       ++ buildPrompt (defaulted input)])
             /\ config w1 = config w /\ clock w1 = clock w
             /\ backends w1 = backends w).
  { intros w1 <-. unfold completionFor.
    rewrite generateCompletionWithCache_run.
    destruct (cacheHit _ w).
    { destruct (truthy _) as [k|]; [destruct (cache w !! k)|];
        (split; [left; reflexivity|repeat split]). }
    cbv zeta.
    destruct (afterCacheCheck_frame (Some (createCacheKey (defaulted input))) w)
      as (n1 & _ & ->).
    destruct (afterRateCheck_frame (userId input) (set_ticks n1 w))
      as (n2 & ->).
    destruct (limitedAt (userId input) _);
      [split; [left; reflexivity|repeat split]|].
    destruct (generateCompletion_sent (buildPrompt (defaulted input))
                (set_ticks n2 (set_ticks n1 w))) as (l & Hl & Hcases).
    destruct (generateCompletion _ _) as [[r|e] w1]; cbn [snd] in *; subst w1.
    - unfold recordWorld, putWorld.
      destruct (truthy (Some _)), (truthy (userId input));
        rewrite ?cachePut_run, ?updateRateLimit_run; unfold tick; world_simpl;
        (split; [exact Hcases|repeat split]).
    - split; [exact Hcases|repeat split]. }
  rewrite generateCreatorBrief_run.
  destruct (validateInputs _ _) as [[]|e];
    [|split; [left; reflexivity|repeat split]].
  specialize (G (snd (completionFor input w)) eq_refl).
  destruct (completionFor input w) as [[response|e] w1]; exact G.
Qed.

(** X17. A brief returned by the workflow has the accepted shape: it is a
    JSON object with a truthy title and objective, three non-empty arrays
    and three nested objects or arrays; its input passed validation, and
    the text it was parsed from is in the cache under the fingerprint. *)
Theorem returned_brief_is_acceptable (input : CreatorBriefInput)
    (brief : JSValue) (w w1 : World) :
  generateCreatorBrief input w = (Ok brief, w1) ->
  acceptable brief = true
  /\ validateInputs (productDescription input) (targetAudience input) = Ok tt
  /\ exists cached,
       cache w1 !! createCacheKey (defaulted input) = Some cached
       /\ parseAndValidateResponse (data cached) = Ok brief.
Proof.
  intros Hrun.
  destruct (workflow_success _ _ _ _ Hrun) as (Hv & response & Hc & Hb).
  destruct (workflow_completed _ _ _ _ Hv Hc) as (_ & cached & Hin & Hdata).
  assert (Hp : parseAndValidateResponse response = Ok brief).
  { unfold briefOf in Hb.
    destruct (parseAndValidateResponse response); [exact Hb|discriminate]. }
  split; [|split; [exact Hv|exists cached; rewrite Hdata; auto]].
  unfold parseAndValidateResponse in Hp. cbv zeta in Hp.
  destruct (JSON_parse (cleanResponse response)) as [parsed|]; [|discriminate].
  pose proof (validateBrief_spec parsed) as Hs.
  destruct (acceptable parsed) eqn:E.
  - rewrite Hs in Hp. inversion Hp; subst. exact E.
  - destruct Hs as (r & _ & Hs). rewrite Hs in Hp. discriminate.
Qed.

(** X17, an instance. *)
Lemma returned_brief_is_acceptable_witness :
  exists brief,
    fst (generateCreatorBrief (sampleInput "Eco bottle" "u1")
           (newService anthropic (steadyClock 1) (answering sampleBriefText)))
    = Ok brief
    /\ acceptable brief = true.
Proof.
  destruct (generateCreatorBrief (sampleInput "Eco bottle" "u1")
              (newService anthropic (steadyClock 1)
                 (answering sampleBriefText))) as [[brief|e] w1] eqn:Hrun;
    [|vm_compute in Hrun; discriminate].
  exists brief. split; [reflexivity|].
  exact (proj1 (returned_brief_is_acceptable _ _ _ _ Hrun)).
Defined.

(** ** [buildPrompt] *)

Lemma getSubstitution_plain (matched before after repl : jsstring) :
  Forall (fun c => c <> 36%N) repl ->
  getSubstitution matched before after repl = repl.
Proof.
  induction 1 as [|c r Hc _ IH]; [reflexivity|].
  cbn [getSubstitution]. apply N.eqb_neq in Hc. rewrite Hc, IH. reflexivity.
Qed.

Lemma braceSafe_app (a b : jsstring) :
  braceSafe a = true -> braceSafe b = true -> braceSafe (a ++ b) = true.
Proof.
  intros Ha Hb. induction a as [|c a IH]; [exact Hb|].
  cbn [app braceSafe] in *. destruct (c =? 123)%N; [|apply IH, Ha].
  destruct a as [|d a']; [discriminate|].
  apply andb_true_iff in Ha as [Hd Ha]. cbn [app].
  rewrite Hd. apply IH, Ha.
Qed.

Lemma braceSafe_no_brace (s : jsstring) :
  Forall (fun c => c <> 123%N) s -> braceSafe s = true.
Proof.
  induction 1 as [|c r Hc _ IH]; [reflexivity|].
  cbn [braceSafe]. apply N.eqb_neq in Hc. rewrite Hc. exact IH.
Qed.

Lemma splitAtFirst_cons_miss (pat : jsstring) (c : N) (s : jsstring) :
  stripPrefix pat (c :: s) = None ->
  splitAtFirst pat (c :: s)
  = match splitAtFirst pat s with
    | Some (before, after) => Some (c :: before, after)
    | None => None
    end.
Proof. intros H. cbn [splitAtFirst]. rewrite H. reflexivity. Qed.

Lemma splitAtFirst_here (pat rest : jsstring) :
  splitAtFirst pat (pat ++ rest) = Some ([], rest).
Proof.
  destruct (pat ++ rest) as [|c s] eqn:E; cbn [splitAtFirst];
    rewrite <- E, stripPrefix_app; reflexivity.
Qed.

(** In a text whose braces are single, a pattern that starts with two
    braces is first found where the text ends. *)
Lemma splitAtFirst_braceSafe (pat' before after : jsstring) :
  braceSafe before = true ->
  splitAtFirst (123 :: 123 :: pat')%N
    (before ++ (123 :: 123 :: pat')%N ++ after)
  = Some (before, after).
Proof.
  intros H. induction before as [|c r IH].
  - rewrite app_nil_l. apply splitAtFirst_here.
  - cbn [braceSafe] in H. change ((c :: r) ++ ?x) with (c :: (r ++ x)).
    rewrite splitAtFirst_cons_miss.
    + destruct (c =? 123)%N; [destruct r as [|d r']; [discriminate|];
                               apply andb_true_iff in H as [_ H]|];
        rewrite (IH H); reflexivity.
    + cbn [stripPrefix]. destruct (N.eqb_spec 123 c) as [<-|]; [|reflexivity].
      rewrite N.eqb_refl in H. destruct r as [|d r']; [discriminate|].
      apply andb_true_iff in H as [Hd _]. cbn [app stripPrefix].
      rewrite N.eqb_sym. apply negb_true_iff in Hd. rewrite Hd. reflexivity.
Qed.

(** One [replace] of [buildPrompt], on a text whose braces before the
    placeholder are single and with a replacement without dollar sign. *)
Lemma replaceFirst_braceSafe (pat' value before after : jsstring) :
  braceSafe before = true ->
  Forall (fun c => c <> 36%N) value ->
  replaceFirst (123 :: 123 :: pat')%N value
    (before ++ (123 :: 123 :: pat')%N ++ after)
  = before ++ value ++ after.
Proof.
  intros Hb Hv. unfold replaceFirst.
  rewrite (splitAtFirst_braceSafe _ _ _ Hb), (getSubstitution_plain _ _ _ _ Hv).
  reflexivity.
Qed.

Lemma templateSafe_spec (s : jsstring) :
  templateSafe s = true ->
  Forall (fun c => c <> 36%N) s /\ Forall (fun c => c <> 123%N) s.
Proof.
  unfold templateSafe. intros H. rewrite forallb_forall in H.
  split; apply List.Forall_forall; intros c Hc; specialize (H c Hc);
    apply andb_true_iff in H as [H1 H2];
    apply negb_true_iff, N.eqb_neq in H1, H2; assumption.
Qed.

Lemma templateSafe_of (s : jsstring) :
  Forall (fun c => c <> 36 /\ c <> 123)%N s -> templateSafe s = true.
Proof.
  intros H. unfold templateSafe. apply forallb_forall.
  rewrite List.Forall_forall in H. intros c Hc. destruct (H c Hc) as [H1 H2].
  apply andb_true_iff. split; apply negb_true_iff, N.eqb_neq; assumption.
Qed.

(** [sanitizeInput] only adds spaces, backslashes and quotes. *)
Lemma sanitizeInput_Forall (P : N -> Prop) (s : jsstring) :
  P 32%N -> P 92%N -> P 34%N ->
  Forall P s -> Forall P (sanitizeInput s).
Proof.
  intros H32 H92 H34 H.
  unfold sanitizeInput, escapeBackslashes, escapeQuotes, collapseNewlines.
  apply flat_map_Forall. intros c Hc.
  assert (Hin : P c).
  { revert c Hc. apply List.Forall_forall.
    apply flat_map_Forall. intros d Hd.
    assert (Hpd : P d).
    { revert d Hd. apply List.Forall_forall.
      pose proof (collapseNewlinesFrom_Forall P false
                    (removeAngleBrackets (trim s)) H32) as Hcol.
      eapply Forall_impl; [apply Hcol|intros x [Hx _]; exact Hx].
      apply List.Forall_forall. intros x Hx.
      unfold removeAngleBrackets in Hx. apply filter_In in Hx as [Hx _].
      pose proof (trim_Forall P s H) as Ht.
      rewrite List.Forall_forall in Ht. apply Ht, Hx. }
    destruct (d =? 34)%N; repeat constructor; assumption. }
  destruct (c =? 92)%N; repeat constructor; assumption.
Qed.

Lemma sanitizeInput_templateSafe (s : jsstring) :
  templateSafe s = true -> templateSafe (sanitizeInput s) = true.
Proof.
  intros H. apply templateSafe_of, sanitizeInput_Forall;
    try (split; discriminate).
  apply templateSafe_spec in H as [H1 H2].
  rewrite List.Forall_forall in *. intros c Hc. split; auto.
Qed.

Lemma join_templateSafe (l : list jsstring) :
  forallb templateSafe l = true -> templateSafe (join (js ", ") l) = true.
Proof.
  unfold templateSafe at 2.
  induction l as [|x l IH]; intros H; [reflexivity|].
  cbn [forallb] in H. apply andb_true_iff in H as [Hx Hl].
  destruct l as [|y l']; [exact Hx|].
  change (join (js ", ") (x :: y :: l'))
    with (x ++ js ", " ++ join (js ", ") (y :: l')).
  rewrite !forallb_app. fold (templateSafe x). rewrite Hx, (IH Hl).
  reflexivity.
Qed.

Lemma template_in_pieces :
  BRIEF_GENERATION_PROMPT_TEMPLATE
  = templatePiece 0 ++ js "{{productDescription}}"
    ++ templatePiece 1 ++ js "{{targetAudience}}"
    ++ templatePiece 2 ++ js "{{campaignGoals}}"
    ++ templatePiece 3 ++ js "{{budget}}"
    ++ templatePiece 4 ++ js "{{platforms}}"
    ++ templatePiece 5 ++ js "{{timeframe}}"
    ++ templatePiece 6.
Proof. vm_compute. reflexivity. Qed.

Lemma templatePiece_braceSafe (i : nat) : braceSafe (templatePiece i) = true.
Proof.
  do 7 (destruct i as [|i]; [vm_compute; reflexivity|]).
  unfold templatePiece. rewrite nth_overflow; [reflexivity|].
  vm_compute. lia.
Qed.

Lemma replace_step (pat' value before piece after : jsstring) :
  braceSafe before = true -> braceSafe piece = true ->
  templateSafe value = true ->
  replaceFirst (123 :: 123 :: pat')%N value
    (before ++ piece ++ (123 :: 123 :: pat')%N ++ after)
  = (before ++ piece ++ value) ++ after.
Proof.
  intros Hb Hp Hv. apply templateSafe_spec in Hv as [Hv _].
  replace (before ++ piece ++ (123 :: 123 :: pat')%N ++ after)
    with ((before ++ piece) ++ (123 :: 123 :: pat')%N ++ after)
    by (rewrite <- app_assoc; reflexivity).
  replace ((before ++ piece ++ value) ++ after)
    with ((before ++ piece) ++ value ++ after)
    by (rewrite <- !app_assoc; reflexivity).
  apply replaceFirst_braceSafe; [apply braceSafe_app; assumption|exact Hv].
Qed.

Lemma templateSafe_braceSafe (s : jsstring) :
  templateSafe s = true -> braceSafe s = true.
Proof.
  intros H. apply braceSafe_no_brace. apply templateSafe_spec in H as [_ H].
  exact H.
Qed.

Lemma replace_step0 (pat' value piece after : jsstring) :
  braceSafe piece = true ->
  templateSafe value = true ->
  replaceFirst (123 :: 123 :: pat')%N value
    (piece ++ (123 :: 123 :: pat')%N ++ after)
  = (piece ++ value) ++ after.
Proof.
  intros Hp Hv. exact (replace_step pat' value [] piece after eq_refl Hp Hv).
Qed.

(** The six replacements of [buildPrompt] on any text made of seven pieces
    with single braces around six placeholders. *)
Lemma fill_six (t0 t1 t2 t3 t4 t5 t6 v1 v2 v3 v4 v5 v6 : jsstring)
    (p1 p2 p3 p4 p5 p6 : jsstring) :
  braceSafe t0 = true -> braceSafe t1 = true -> braceSafe t2 = true ->
  braceSafe t3 = true -> braceSafe t4 = true -> braceSafe t5 = true ->
  templateSafe v1 = true -> templateSafe v2 = true ->
  templateSafe v3 = true -> templateSafe v4 = true ->
  templateSafe v5 = true -> templateSafe v6 = true ->
  replaceFirst (123 :: 123 :: p6)%N v6
    (replaceFirst (123 :: 123 :: p5)%N v5
       (replaceFirst (123 :: 123 :: p4)%N v4
          (replaceFirst (123 :: 123 :: p3)%N v3
             (replaceFirst (123 :: 123 :: p2)%N v2
                (replaceFirst (123 :: 123 :: p1)%N v1
                   (t0 ++ (123 :: 123 :: p1)%N
                    ++ t1 ++ (123 :: 123 :: p2)%N
                    ++ t2 ++ (123 :: 123 :: p3)%N
                    ++ t3 ++ (123 :: 123 :: p4)%N
                    ++ t4 ++ (123 :: 123 :: p5)%N
                    ++ t5 ++ (123 :: 123 :: p6)%N
                    ++ t6))))))
  = t0 ++ v1 ++ t1 ++ v2 ++ t2 ++ v3 ++ t3 ++ v4 ++ t4 ++ v5 ++ t5 ++ v6 ++ t6.
Proof.
  intros T0 T1 T2 T3 T4 T5 V1 V2 V3 V4 V5 V6.
  pose proof (templateSafe_braceSafe _ V1) as B1.
  pose proof (templateSafe_braceSafe _ V2) as B2.
  pose proof (templateSafe_braceSafe _ V3) as B3.
  pose proof (templateSafe_braceSafe _ V4) as B4.
  pose proof (templateSafe_braceSafe _ V5) as B5.
  rewrite (replace_step0 p1 v1 t0) by assumption.
  set (b1 := t0 ++ v1).
  assert (Hb1 : braceSafe b1 = true) by (apply braceSafe_app; assumption).
  rewrite (replace_step p2 v2 b1 t1) by assumption.
  set (b2 := b1 ++ t1 ++ v2).
  assert (Hb2 : braceSafe b2 = true)
    by (apply braceSafe_app; [|apply braceSafe_app]; assumption).
  rewrite (replace_step p3 v3 b2 t2) by assumption.
  set (b3 := b2 ++ t2 ++ v3).
  assert (Hb3 : braceSafe b3 = true)
    by (apply braceSafe_app; [|apply braceSafe_app]; assumption).
  rewrite (replace_step p4 v4 b3 t3) by assumption.
  set (b4 := b3 ++ t3 ++ v4).
  assert (Hb4 : braceSafe b4 = true)
    by (apply braceSafe_app; [|apply braceSafe_app]; assumption).
  rewrite (replace_step p5 v5 b4 t4) by assumption.
  set (b5 := b4 ++ t4 ++ v5).
  assert (Hb5 : braceSafe b5 = true)
    by (apply braceSafe_app; [|apply braceSafe_app]; assumption).
  rewrite (replace_step p6 v6 b5 t5) by assumption.
  unfold b5, b4, b3, b2, b1. rewrite <- !app_assoc. reflexivity.
Qed.

(** X18. When the five free-text fields and the platform names hold no
    dollar sign and no opening brace, the prompt is the template with each
    placeholder replaced by the sanitized field, and the platforms
    placeholder by the names joined with a comma and a space. *)
Theorem prompt_is_the_filled_template (f : BriefFields) :
  templateSafe (f_productDescription f) = true ->
  templateSafe (f_targetAudience f) = true ->
  templateSafe (f_campaignGoals f) = true ->
  templateSafe (f_budget f) = true ->
  forallb templateSafe (f_platforms f) = true ->
  templateSafe (f_timeframe f) = true ->
  buildPrompt f
  = filledTemplate (sanitizeInput (f_productDescription f))
      (sanitizeInput (f_targetAudience f))
      (sanitizeInput (f_campaignGoals f))
      (sanitizeInput (f_budget f))
      (join (js ", ") (f_platforms f))
      (sanitizeInput (f_timeframe f)).
Proof.
  intros H1 H2 H3 H4 H5 H6.
  apply sanitizeInput_templateSafe in H1, H2, H3, H4, H6.
  apply join_templateSafe in H5.
  unfold buildPrompt, filledTemplate.
  generalize dependent (sanitizeInput (f_productDescription f)).
  generalize dependent (sanitizeInput (f_targetAudience f)).
  generalize dependent (sanitizeInput (f_campaignGoals f)).
  generalize dependent (sanitizeInput (f_budget f)).
  generalize dependent (join (js ", ") (f_platforms f)).
  generalize dependent (sanitizeInput (f_timeframe f)).
  intros v6 H6 v5 H5 v4 H4 v3 H3 v2 H2 v1 H1.
  rewrite template_in_pieces.
  exact (fill_six (templatePiece 0) (templatePiece 1) (templatePiece 2)
           (templatePiece 3) (templatePiece 4) (templatePiece 5)
           (templatePiece 6) v1 v2 v3 v4 v5 v6
           (js "productDescription}}") (js "targetAudience}}")
           (js "campaignGoals}}") (js "budget}}") (js "platforms}}")
           (js "timeframe}}")
           (templatePiece_braceSafe 0) (templatePiece_braceSafe 1)
           (templatePiece_braceSafe 2) (templatePiece_braceSafe 3)
           (templatePiece_braceSafe 4) (templatePiece_braceSafe 5)
           H1 H2 H3 H4 H5 H6).
Qed.

(** X18, an instance: the sample request. *)
Lemma prompt_is_the_filled_template_witness :
  buildPrompt (defaulted (sampleInput "  Eco-friendly <b>water</b> bottle" "u1"))
  = filledTemplate (js "Eco-friendly bwater/b bottle")
      (js "Millennials interested in sustainability")
      (js "Increase brand awareness and drive conversions")
      (js "Not specified") (js "Instagram, TikTok") (js "30 days").
Proof.
  rewrite (prompt_is_the_filled_template
             (defaulted (sampleInput "  Eco-friendly <b>water</b> bottle" "u1")));
    vm_compute; reflexivity.
Defined.

(** ** [parseAndValidateResponse]: the code fences *)

Lemma dropWhile_run {A} (p : A -> bool) (run rest : list A) :
  forallb p run = true -> dropWhile p (run ++ rest) = dropWhile p rest.
Proof.
  induction run as [|x run IH]; intros H; [reflexivity|].
  cbn [forallb] in H. apply andb_true_iff in H as [Hx H].
  cbn [app dropWhile]. rewrite Hx. apply IH, H.
Qed.

Lemma stripJsonFenceOpener_other (c : N) (rest : jsstring) :
  ((c =? 106) || (c =? 74))%N = false ->
  stripJsonFenceOpener (96 :: 96 :: 96 :: c :: rest)%N
  = (96 :: 96 :: 96 :: c :: rest)%N.
Proof.
  intros H. destruct rest as [|s [|o [|n rest]]]; try reflexivity.
  cbn [stripJsonFenceOpener]. rewrite H. reflexivity.
Qed.

Lemma whiteSpace_not_j (c : N) :
  isWhiteSpace c = true -> ((c =? 106) || (c =? 74))%N = false.
Proof.
  intros H. apply orb_false_iff.
  split; apply N.eqb_neq; intros ->; vm_compute in H; discriminate.
Qed.

(** X19. A JSON object or array text wrapped in a code fence is unwrapped:
    for a text that starts with a brace or a bracket and ends with one,
    fenced with the tag "json" in any case or with no tag, and with any
    white space inside the fences, the cleaned response is the text itself,
    as for the bare text, so both give the same parse result. *)
Theorem fenced_response_is_unwrapped (tag ws1 ws2 body : jsstring) (x y : N) :
  isJsonTag tag = true ->
  forallb isWhiteSpace ws1 = true ->
  forallb isWhiteSpace ws2 = true ->
  x = 123%N \/ x = 91%N ->
  y = 125%N \/ y = 93%N ->
  let text := x :: body ++ [y] in
  cleanResponse (fenced tag ws1 text ws2) = text
  /\ cleanResponse text = text
  /\ parseAndValidateResponse (fenced tag ws1 text ws2)
     = parseAndValidateResponse text.
Proof.
  intros Htag H1 H2 Hx Hy. cbv zeta.
  assert (Wx : isWhiteSpace x = false) by (destruct Hx; subst; reflexivity).
  assert (Wy : isWhiteSpace y = false) by (destruct Hy; subst; reflexivity).
  assert (Bx : (x =? 96)%N = false) by (destruct Hx; subst; reflexivity).
  assert (By : (y =? 96)%N = false) by (destruct Hy; subst; reflexivity).
  assert (Jx : ((x =? 106) || (x =? 74))%N = false)
    by (destruct Hx; subst; reflexivity).
  set (text := x :: body ++ [y]).
  assert (Htrim : trim text = text) by (apply trim_bare; assumption).
  assert (Hopen : stripFenceOpener text = text).
  { unfold text, stripFenceOpener.
    destruct (N.eqb_spec x 96) as [->|Hne]; [discriminate|].
    destruct x as [|px]; [reflexivity|].
    repeat (destruct px as [px|px|]; try reflexivity); contradiction. }
  assert (Hjopen : stripJsonFenceOpener text = text).
  { unfold text, stripJsonFenceOpener.
    destruct (N.eqb_spec x 96) as [->|Hne]; [discriminate|].
    destruct x as [|px]; [reflexivity|].
    repeat (destruct px as [px|px|]; try reflexivity); contradiction. }
  assert (Hclose : forall pre, stripFenceCloser (pre ++ text ++ ws2 ++ [96; 96; 96]%N)
                               = pre ++ text).
  { intros pre. unfold stripFenceCloser.
    rewrite !app_assoc, rev_app_distr. cbn [rev app].
    rewrite rev_app_distr, dropWhile_run
      by (rewrite forallb_forall in *; intros c Hc; apply H2, in_rev, Hc).
    unfold text.
    replace (pre ++ x :: body ++ [y]) with ((pre ++ x :: body) ++ [y])
      by (rewrite <- app_assoc; reflexivity).
    rewrite rev_app_distr. cbn [rev app dropWhile]. rewrite Wy.
    change (y :: rev (pre ++ x :: body))
      with (rev [y] ++ rev (pre ++ x :: body)).
    rewrite <- rev_app_distr, rev_involutive. reflexivity. }
  assert (Hdrop : forall rest,
             dropWhile isWhiteSpace (ws1 ++ text ++ rest) = text ++ rest).
  { intros rest. rewrite (dropWhile_run _ _ _ H1). unfold text.
    cbn [app dropWhile]. rewrite Wx. reflexivity. }
  assert (Hown : cleanResponse text = text).
  { unfold cleanResponse. rewrite Htrim, Hjopen.
    assert (Hc : stripFenceCloser text = text).
    { unfold stripFenceCloser, text.
      change (x :: body ++ [y]) with ((x :: body) ++ [y]).
      rewrite rev_app_distr. cbn [rev app].
      destruct (N.eqb_spec y 96) as [->|Hne]; [discriminate|].
      destruct y as [|py]; [reflexivity|].
      repeat (destruct py as [py|py|]; try reflexivity); contradiction. }
    rewrite Hc, Hopen. exact Htrim. }
  assert (Hfenced : cleanResponse (fenced tag ws1 text ws2) = text).
  { unfold cleanResponse, fenced.
    assert (Hwhole : forall s,
               trim ([96; 96; 96]%N ++ s ++ [96; 96; 96]%N)
               = [96; 96; 96]%N ++ s ++ [96; 96; 96]%N).
    { intros s.
      replace ([96; 96; 96]%N ++ s ++ [96; 96; 96]%N)
        with (96%N :: ([96; 96]%N ++ s ++ [96; 96]%N) ++ [96%N])
        by (cbn [app]; rewrite <- !app_assoc; reflexivity).
      apply trim_bare; reflexivity. }
    replace ([96; 96; 96]%N ++ tag ++ ws1 ++ text ++ ws2 ++ [96; 96; 96]%N)
      with ([96; 96; 96]%N ++ (tag ++ ws1 ++ text ++ ws2) ++ [96; 96; 96]%N)
      by (rewrite <- !app_assoc; reflexivity).
    rewrite Hwhole. rewrite <- !app_assoc.
    destruct tag as [|j [|s [|o [|n [|extra tag']]]]]; try discriminate.
    - (* no tag *)
      cbn [app].
      assert (E : stripJsonFenceOpener
                    (96 :: 96 :: 96 :: ws1 ++ text ++ ws2 ++ [96; 96; 96])%N
                  = (96 :: 96 :: 96 :: ws1 ++ text ++ ws2 ++ [96; 96; 96])%N).
      { destruct ws1 as [|c ws1'].
        - apply stripJsonFenceOpener_other. exact Jx.
        - apply stripJsonFenceOpener_other, whiteSpace_not_j.
          cbn [forallb] in H1. apply andb_true_iff in H1 as [H1 _]. exact H1. }
      rewrite E.
      replace (96 :: 96 :: 96 :: ws1 ++ text ++ ws2 ++ [96; 96; 96])%N
        with (([96; 96; 96]%N ++ ws1) ++ text ++ ws2 ++ [96; 96; 96]%N)
        by (rewrite <- app_assoc; reflexivity).
      rewrite Hclose. rewrite <- app_assoc. cbn [app stripFenceOpener].
      rewrite <- (app_nil_r text) at 1. rewrite Hdrop, app_nil_r.
      exact Htrim.
    - (* the tag json, in either case *)
      cbn [app stripJsonFenceOpener]. cbn [isJsonTag] in Htag.
      rewrite Htag, Hdrop.
      rewrite <- (app_nil_l (text ++ ws2 ++ [96; 96; 96]%N)), Hclose.
      cbn [app]. rewrite Hopen. exact Htrim. }
  split; [exact Hfenced|]. split; [exact Hown|].
  unfold parseAndValidateResponse. cbv zeta. rewrite Hfenced, Hown.
  reflexivity.
Qed.

(** X19, an instance: the sample brief after "```JSON" and a line feed. *)
Lemma fenced_response_is_unwrapped_witness :
  parseAndValidateResponse
    ([96; 96; 96]%N ++ js "JSON" ++ [10%N] ++ sampleBriefText
     ++ [10; 32]%N ++ [96; 96; 96]%N)
  = parseAndValidateResponse sampleBriefText.
Proof.
  pose proof (fenced_response_is_unwrapped (js "JSON") [10%N] [10; 32]%N
                (removelast (tl sampleBriefText)) 123%N 125%N
                eq_refl eq_refl eq_refl (or_introl eq_refl)
                (or_introl eq_refl)) as H.
  cbv zeta in H. destruct H as (_ & _ & H).
  assert (E : (123 :: removelast (tl sampleBriefText) ++ [125])%N
              = sampleBriefText) by (vm_compute; reflexivity).
  rewrite E in H. exact H.
Defined.

(** ** The workflow: how a refused response is reported *)

Lemma surfaced_rejection (brief : JSValue) (r : Rejection) :
  rejects brief r ->
  surfaced (JsError (rejectionMessage r))
  = JsError (failedToGenerate (rejectionMessage r)).
Proof.
  destruct r as [|field|field|field]; cbn [rejects].
  - intros _. vm_compute. reflexivity.
  - intros [Hin _]. unfold requiredFields in Hin. cbn [In] in Hin.
    repeat (destruct Hin as [<-|Hin]; [vm_compute; reflexivity|]).
    destruct Hin.
  - intros [Hin _]. unfold arrayFields in Hin. cbn [In] in Hin.
    repeat (destruct Hin as [<-|Hin]; [vm_compute; reflexivity|]).
    destruct Hin.
  - intros [Hin _]. unfold subObjectFields in Hin. cbn [In] in Hin.
    repeat (destruct Hin as [<-|Hin]; [vm_compute; reflexivity|]).
    destruct Hin.
Qed.

(** X20. Once the orchestrator has returned a raw text, the workflow ends
    in one of three ways, decided by the text alone. A text that
    [JSON.parse] refuses is reported as "Failed to process AI response.
    Please try again."; a parsed value of the accepted shape is returned;
    a parsed value of another shape is reported with the validator's own
    message behind "Failed to generate creator brief: ", never as a
    response that could not be processed. The world is the one the
    orchestrator left. *)
Theorem refused_response_is_reported_by_kind (input : CreatorBriefInput)
    (response : jsstring) (w w1 : World) :
  validateInputs (productDescription input) (targetAudience input) = Ok tt ->
  completionFor input w = (Ok response, w1) ->
  match JSON_parse (cleanResponse response) with
  | None =>
      generateCreatorBrief input w = (Throw (JsError failedToProcess), w1)
  | Some brief =>
      if acceptable brief
      then generateCreatorBrief input w = (Ok brief, w1)
      else exists r,
             rejects brief r
             /\ generateCreatorBrief input w
                = (Throw (JsError (failedToGenerate (rejectionMessage r))), w1)
  end.
Proof.
  intros Hv Hc.
  destruct (workflow_completed _ _ _ _ Hv Hc) as (-> & _).
  unfold briefOf, parseAndValidateResponse. cbv zeta.
  destruct (JSON_parse (cleanResponse response)) as [brief|];
    [|reflexivity].
  pose proof (validateBrief_spec brief) as Hs.
  destruct (acceptable brief).
  - rewrite Hs. reflexivity.
  - destruct Hs as (r & Hr & ->). exists r. split; [exact Hr|].
    rewrite (surfaced_rejection _ _ Hr). reflexivity.
Qed.

(** X20, an instance: the backend answers with an object that has no
    title. *)
Lemma refused_response_is_reported_by_kind_witness :
  exists r,
    fst (generateCreatorBrief (sampleInput "Eco bottle" "u1")
           (newService openai (steadyClock 1)
              (answering (jsq "{'objective':'O'}"))))
    = Throw (JsError (failedToGenerate (rejectionMessage r))).
Proof.
  pose proof (refused_response_is_reported_by_kind
                (sampleInput "Eco bottle" "u1") (jsq "{'objective':'O'}")
                (newService openai (steadyClock 1)
                   (answering (jsq "{'objective':'O'}")))
                (snd (completionFor (sampleInput "Eco bottle" "u1")
                        (newService openai (steadyClock 1)
                           (answering (jsq "{'objective':'O'}")))))
                ltac:(vm_compute; reflexivity)
                ltac:(vm_compute; reflexivity)) as H.
  assert (E : JSON_parse (cleanResponse (jsq "{'objective':'O'}"))
              = Some (JObject [(js "objective", JString (js "O"))]))
    by (vm_compute; reflexivity).
  rewrite E in H. cbn [acceptable] in H.
  change (acceptable (JObject [(js "objective", JString (js "O"))]))
    with false in H.
  destruct H as (r & _ & H). exists r. rewrite H. reflexivity.
Defined.
